(** * Foodex billing: the order store and the totals calculator

    A shallow embedding of the two pieces of logic of the billing
    application: [orderReducer] (src/context/OrderContext.tsx), the only
    mutation surface of the order state, and [calculateTotals]
    (src/lib/utils.ts), which derives the billable figures.

    JavaScript numbers are IEEE 754 binary64 values: they are modelled by
    Rocq's primitive [float], so [+] and [-] below round exactly as the
    program's do.  Identifiers are the integers of the catalog ([Z]). *)

From Stdlib Require Import ZArith String List Floats.
From stdpp Require Import base list gmap strings.

Local Open Scope string_scope.
Local Open Scope list_scope.

(** ** The fragment of JavaScript the code relies on *)

Module JS.

(** What a [throw] carries.  The messages of the engine's own TypeErrors
    differ between engines and are left out. *)
Inductive exn : Type :=
| Error (message : string)
| TypeError.

(** The outcome of a call: a returned value or a thrown exception. *)
Inductive completion (A : Type) : Type :=
| Return (a : A)
| Throw (e : exn).
Arguments Return {A} a.
Arguments Throw {A} e.

Definition bind {A B : Type} (c : completion A) (k : A -> completion B)
  : completion B :=
  match c with
  | Return a => k a
  | Throw e => Throw e
  end.

Definition returns {A : Type} (c : completion A) : Prop :=
  exists a, c = Return a.

(** A position that a typed caller fills with an [A] may, in an untyped
    call, hold [undefined] (also: the argument was omitted) or [null]. *)
Inductive nullable (A : Type) : Type :=
| undefined
| null
| val (a : A).
Arguments undefined {A}.
Arguments null {A}.
Arguments val {A} a.

Definition is_val {A : Type} (v : nullable A) : Prop :=
  match v with val _ => True | _ => False end.

(** A default parameter [x = d] takes [d] exactly when the argument is
    [undefined]; [null] is passed through. *)
Definition default_parameter {A : Type} (arg d : nullable A) : nullable A :=
  match arg with
  | undefined => d
  | _ => arg
  end.

(** The receiver of a property read or of a method call: on [undefined]
    and on [null] the access throws a TypeError. *)
Definition receiver {A : Type} (o : nullable A) : completion A :=
  match o with
  | val a => Return a
  | _ => Throw TypeError
  end.

(** ToNumber on the operand of an arithmetic operator. *)
Definition ToNumber (v : nullable float) : float :=
  match v with
  | undefined => nan
  | null => 0%float
  | val x => x
  end.

(** [Array.prototype.reduce] with an initial value: a left fold that stops
    at the first exception of the callback. *)
Fixpoint reduce {A B : Type} (callback : B -> A -> completion B)
         (array : list A) (initialValue : B) : completion B :=
  match array with
  | [] => Return initialValue
  | x :: rest =>
      bind (callback initialValue x) (fun acc => reduce callback rest acc)
  end.

End JS.

Import JS.

#[global] Instance completion_ret : MRet completion := @Return.
#[global] Instance completion_bind : MBind completion :=
  fun A B k c => bind c k.

(** ** Data model *)

(** A catalog entry; a line item of the order is the same object. *)
Module MenuItem.
Record t : Type := mk {
  id : Z;
  name : string;
  price : float;
  category : string
}.
End MenuItem.

(** src/lib/menuItems.ts.  The decimal literals denote the nearest binary64
    values, as they do in the program. *)
#[local] Set Warnings "-inexact-float".
Definition menuItems : list MenuItem.t :=
  [ MenuItem.mk 1 "Burger" 5.99 "Burgers";
    MenuItem.mk 2 "Pizza" 8.99 "Pizza";
    MenuItem.mk 3 "Fries" 2.99 "Sides";
    MenuItem.mk 4 "Soda" 1.99 "Drinks" ].
#[local] Set Warnings "inexact-float".

Module Totals.
Record t : Type := mk {
  subtotal : float;
  total : float
}.
End Totals.

(** ** The totals calculator (src/lib/utils.ts)
<<
    export function calculateTotals(items = [], discount = 0, deliveryCharge = 0) {
      const subtotal = items.reduce((sum, item) => sum + item.price, 0);
      const total = subtotal - discount + deliveryCharge;
      return { subtotal, total };
    }
>> *)
Definition calculateTotals
  (items : nullable (list (nullable MenuItem.t)))
  (discount deliveryCharge : nullable float) : completion Totals.t :=
  let items := default_parameter items (val []) in
  let discount := default_parameter discount (val 0%float) in
  let deliveryCharge := default_parameter deliveryCharge (val 0%float) in
  array ← receiver items;
  subtotal ← reduce (fun sum item =>
                       item ← receiver item;
                       Return (sum + MenuItem.price item)%float)
                    array 0%float;
  let total := (subtotal - ToNumber discount + ToNumber deliveryCharge)%float in
  Return (Totals.mk subtotal total).

(** ** The order state store (src/context/OrderContext.tsx) *)

(** The customer record is a JavaScript object with string fields; it is a
    finite map from field names to their values, so that the object spread
    of the reducer is a union of maps. *)
Module OrderState.
Record t : Type := mk {
  items : list MenuItem.t;
  customer : gmap string string;
  discount : float;
  deliveryCharge : float
}.
End OrderState.

(** A mutation request: its tag, any string, and the fields the branches of
    the reducer read.  A branch reads the field of its own tag only, so the
    other fields of a request are of no consequence, as in
    [{ type: "ADD_ITEM", item }]. *)
Module Action.
Record t : Type := mk {
  type : string;
  item : MenuItem.t;
  id : Z;
  payload : gmap string string
}.
End Action.

Definition initialState : OrderState.t :=
  {| OrderState.items := [];
     OrderState.customer := {[ "name" := ""; "phone" := ""; "address" := "" ]};
     OrderState.discount := 0;
     OrderState.deliveryCharge := 0 |}.

(**
<<
    function orderReducer(state, action) {
      switch (action.type) {
        case "ADD_ITEM":
          return { ...state, items: [...state.items, action.item] };
        case "REMOVE_ITEM":
          return { ...state, items: state.items.filter(item => item.id !== action.id) };
        case "UPDATE_CUSTOMER":
          return { ...state, customer: { ...state.customer, ...action.payload } };
        default:
          throw new Error(`Unhandled action type: ${action.type}`);
      }
    }
>>
    In [{ ...a, ...b }] the fields of [b] win: the union of maps is
    left-biased, so [b] is its left operand. *)
Definition orderReducer (state : OrderState.t) (action : Action.t)
  : completion OrderState.t :=
  if String.eqb (Action.type action) "ADD_ITEM" then
    Return {| OrderState.items := OrderState.items state ++ [Action.item action];
              OrderState.customer := OrderState.customer state;
              OrderState.discount := OrderState.discount state;
              OrderState.deliveryCharge := OrderState.deliveryCharge state |}
  else if String.eqb (Action.type action) "REMOVE_ITEM" then
    Return {| OrderState.items :=
                filter (fun item => MenuItem.id item <> Action.id action)
                       (OrderState.items state);
              OrderState.customer := OrderState.customer state;
              OrderState.discount := OrderState.discount state;
              OrderState.deliveryCharge := OrderState.deliveryCharge state |}
  else if String.eqb (Action.type action) "UPDATE_CUSTOMER" then
    Return {| OrderState.items := OrderState.items state;
              OrderState.customer :=
                Action.payload action ∪ OrderState.customer state;
              OrderState.discount := OrderState.discount state;
              OrderState.deliveryCharge := OrderState.deliveryCharge state |}
  else
    Throw (Error ("Unhandled action type: " +:+ Action.type action)).

(** [useReducer]: every dispatched action is applied to the state the
    previous one left; a throwing reducer stops the sequence. *)
Definition dispatchAll (state : OrderState.t) (actions : list Action.t)
  : completion OrderState.t :=
  reduce orderReducer actions state.

(** The calls of OrderSummary and Receipt:
    [calculateTotals(state.items, state.discount, state.deliveryCharge)]. *)
Definition totalsOf (state : OrderState.t) : completion Totals.t :=
  calculateTotals (val (map val (OrderState.items state)))
                  (val (OrderState.discount state))
                  (val (OrderState.deliveryCharge state)).

(** ** Vocabulary of the properties *)

Definition is_add (action : Action.t) : bool :=
  String.eqb (Action.type action) "ADD_ITEM".

Definition is_remove (action : Action.t) : bool :=
  String.eqb (Action.type action) "REMOVE_ITEM".

(** A request of a sequence of adds and removes. *)
Definition add_or_remove (action : Action.t) : Prop :=
  is_add action || is_remove action = true.

(** The line items of a state that carry a given identifier. *)
Definition matching (state : OrderState.t) (id : Z) : list MenuItem.t :=
  filter (fun item => MenuItem.id item = id) (OrderState.items state).

(** Every action of a sequence paired with the state it is applied to. *)
Fixpoint history (state : OrderState.t) (actions : list Action.t)
  : list (OrderState.t * Action.t) :=
  match actions with
  | [] => []
  | action :: rest =>
      (state, action) ::
      match orderReducer state action with
      | Return state' => history state' rest
      | Throw _ => []
      end
  end.

(** The number of add requests of a sequence. *)
Definition adds (actions : list Action.t) : nat :=
  length (filter (fun a => is_add a = true) actions).

(** The items handed to the add requests, in the order of the requests. *)
Definition added (actions : list Action.t) : list MenuItem.t :=
  map Action.item (filter (fun a => is_add a = true) actions).

(** A remove request is successful when it finds a line item to delete. *)
Definition successful_remove (step : OrderState.t * Action.t) : bool :=
  is_remove step.2 && negb (bool_decide (matching step.1 (Action.id step.2) = [])).

Definition successful_removes (state : OrderState.t) (actions : list Action.t)
  : nat :=
  length (filter (fun step => successful_remove step = true)
                 (history state actions)).

(** The number of line items a step deletes, and the number a sequence
    deletes. *)
Definition deleted_by (step : OrderState.t * Action.t) : nat :=
  if is_remove step.2 then length (matching step.1 (Action.id step.2)) else 0.

Definition deleted (state : OrderState.t) (actions : list Action.t) : nat :=
  foldr (fun step n => deleted_by step + n) 0 (history state actions).

(** No add request inserts an identifier that a line item of the order
    already carries. *)
Definition fresh_add (step : OrderState.t * Action.t) : Prop :=
  is_add step.2 = true -> matching step.1 (MenuItem.id (Action.item step.2)) = [].

Definition fresh_adds (state : OrderState.t) (actions : list Action.t) : Prop :=
  Forall fresh_add (history state actions).

(** The sum of the unit prices of a sequence of line items, added from left
    to right in binary64 arithmetic, [0] for the empty sequence. *)
Definition sum_of_prices (items : list MenuItem.t) : float :=
  fold_left PrimFloat.add (map MenuItem.price items) 0%float.

(** A request with one of the three tags of the [switch]. *)
Definition recognised (action : Action.t) : bool :=
  String.eqb (Action.type action) "ADD_ITEM"
  || String.eqb (Action.type action) "REMOVE_ITEM"
  || String.eqb (Action.type action) "UPDATE_CUSTOMER".

(** ** The components that dispatch (src/components, src/app/page.tsx) *)

(** A request object built by a component carries its tag and one field.
    The record holds these values at the fields the object lacks; the
    branch of the tag never reads them. *)
Definition no_item : MenuItem.t := MenuItem.mk 0 "" 0 "".
Definition no_id : Z := 0.
Definition no_payload : gmap string string := ∅.

(** MenuItemCard: [{ type: "ADD_ITEM", item }] *)
Definition ADD_ITEM (item : MenuItem.t) : Action.t :=
  {| Action.type := "ADD_ITEM"; Action.item := item;
     Action.id := no_id; Action.payload := no_payload |}.

(** OrderSummary: [{ type: "REMOVE_ITEM", id: item.id }] *)
Definition REMOVE_ITEM (id : Z) : Action.t :=
  {| Action.type := "REMOVE_ITEM"; Action.item := no_item;
     Action.id := id; Action.payload := no_payload |}.

(** CustomerForm: [{ type: "UPDATE_CUSTOMER", payload: data }] *)
Definition UPDATE_CUSTOMER (payload : gmap string string) : Action.t :=
  {| Action.type := "UPDATE_CUSTOMER"; Action.item := no_item;
     Action.id := no_id; Action.payload := payload |}.

(** MenuItemCard.handleAdd, with the lines written to the console:
<<
    const handleAdd = () => {
      try {
        dispatch({ type: "ADD_ITEM", item });
      } catch (error) {
        console.error("Failed to add item", error);
      }
    };
>> *)
Definition handleAdd (state : OrderState.t) (item : MenuItem.t)
  : OrderState.t * list string :=
  match orderReducer state (ADD_ITEM item) with
  | Return state' => (state', [])
  | Throw error => (state, ["Failed to add item"])
  end.

(** The Remove button OrderSummary renders beside a line item:
    [onClick={() => dispatch({ type: "REMOVE_ITEM", id: item.id })}]. *)
Definition handleRemove (state : OrderState.t) (item : MenuItem.t)
  : completion OrderState.t :=
  orderReducer state (REMOVE_ITEM (MenuItem.id item)).

(** The values of the three inputs of CustomerForm. *)
Module CustomerFormData.
Record t : Type := mk {
  name : string;
  phone : string;
  address : string
}.
End CustomerFormData.

(** The messages the form shows under its inputs. *)
Module FormErrors.
Record t : Type := mk {
  name : option string;
  phone : option string;
  address : option string
}.
End FormErrors.

(** zod's [z.string().nonempty(message)] on a string: the issue [message]
    when the string has no character. *)
Definition nonempty (message value : string) : option string :=
  if Nat.eqb (String.length value) 0 then Some message else None.

(**
<<
    const customerSchema = z.object({
      name: z.string().nonempty("Name is required"),
      phone: z.string().nonempty("Phone is required"),
      address: z.string().nonempty("Address is required"),
    });
>> *)
Definition customerSchema (data : CustomerFormData.t) : FormErrors.t :=
  {| FormErrors.name := nonempty "Name is required" (CustomerFormData.name data);
     FormErrors.phone := nonempty "Phone is required" (CustomerFormData.phone data);
     FormErrors.address :=
       nonempty "Address is required" (CustomerFormData.address data) |}.

Definition noErrors : FormErrors.t :=
  {| FormErrors.name := None; FormErrors.phone := None;
     FormErrors.address := None |}.

Definition isValid (errors : FormErrors.t) : bool :=
  match FormErrors.name errors, FormErrors.phone errors,
        FormErrors.address errors with
  | None, None, None => true
  | _, _, _ => false
  end.

(** The object the form hands to [onSubmit]. *)
Definition formObject (data : CustomerFormData.t) : gmap string string :=
  {[ "name" := CustomerFormData.name data;
     "phone" := CustomerFormData.phone data;
     "address" := CustomerFormData.address data ]}.

(** CustomerForm.onSubmit:
    [dispatch({ type: "UPDATE_CUSTOMER", payload: data })]. *)
Definition onSubmit (state : OrderState.t) (data : CustomerFormData.t)
  : completion OrderState.t :=
  orderReducer state (UPDATE_CUSTOMER (formObject data)).

(** [handleSubmit(onSubmit)] with the zod resolver: [onSubmit] runs only on
    data the schema accepts; otherwise the issues become the form's
    errors and nothing is dispatched. *)
Definition handleSubmit (state : OrderState.t) (data : CustomerFormData.t)
  : completion (OrderState.t * FormErrors.t) :=
  let errors := customerSchema data in
  if isValid errors then
    state' ← onSubmit state data;
    Return (state', errors)
  else
    Return (state, errors).

(** What the user can do on the page.  HomePage renders one card for each
    entry of [menuItems]; OrderSummary renders one Remove button for each
    line item of the current order. *)
Inductive event : Type :=
| ClickAdd (item : MenuItem.t)
| ClickRemove (item : MenuItem.t)
| SubmitForm (data : CustomerFormData.t).

Definition offered (state : OrderState.t) (e : event) : Prop :=
  match e with
  | ClickAdd item => item ∈ menuItems
  | ClickRemove item => item ∈ OrderState.items state
  | SubmitForm _ => True
  end.

Definition handle (state : OrderState.t) (e : event)
  : completion OrderState.t :=
  match e with
  | ClickAdd item => Return (handleAdd state item).1
  | ClickRemove item => handleRemove state item
  | SubmitForm data => result ← handleSubmit state data; Return result.1
  end.

(** The states of the store in a session: the initial one and those the
    offered events lead to. *)
Inductive reachable : OrderState.t -> Prop :=
| reachable_initial : reachable initialState
| reachable_event (state state' : OrderState.t) (e : event) :
    reachable state -> offered state e -> handle state e = Return state' ->
    reachable state'.

(** The customer record holds the three fields of an accepted form. *)
Definition complete_customer (customer : gmap string string) : Prop :=
  exists data : CustomerFormData.t,
    customer = formObject data /\
    CustomerFormData.name data <> "" /\
    CustomerFormData.phone data <> "" /\
    CustomerFormData.address data <> "".

(** [without item lines kept]: [kept] is [lines] with every copy of [item]
    taken out and every other line item left where it is. *)
Inductive without (item : MenuItem.t) : list MenuItem.t -> list MenuItem.t -> Prop :=
| without_nil : without item [] []
| without_copy (lines kept : list MenuItem.t) :
    without item lines kept -> without item (item :: lines) kept
| without_other (line : MenuItem.t) (lines kept : list MenuItem.t) :
    line <> item -> without item lines kept ->
    without item (line :: lines) (line :: kept).

(** The amount an adjustment argument stands for in the total: the default
    [0] when it is omitted, [0] again for [null], its own value otherwise. *)
Definition amount (adjustment : nullable float) : float :=
  match adjustment with
  | val x => x
  | _ => 0%float
  end.

(** Instantiates an induction hypothesis at the state a proved step
    leads to. *)
Ltac at_next_state Hstep IH :=
  match type of Hstep with
  | _ = Return ?s => specialize (IH s)
  end.

(** ** The reducer, branch by branch *)

Section Branches.

Variables (state : OrderState.t) (action : Action.t).

Lemma orderReducer_ADD_ITEM :
  Action.type action = "ADD_ITEM" ->
  orderReducer state action =
  Return {| OrderState.items := OrderState.items state ++ [Action.item action];
            OrderState.customer := OrderState.customer state;
            OrderState.discount := OrderState.discount state;
            OrderState.deliveryCharge := OrderState.deliveryCharge state |}.
Proof. intros E. unfold orderReducer. now rewrite E. Qed.

Lemma orderReducer_REMOVE_ITEM :
  Action.type action = "REMOVE_ITEM" ->
  orderReducer state action =
  Return {| OrderState.items :=
              filter (fun item => MenuItem.id item <> Action.id action)
                     (OrderState.items state);
            OrderState.customer := OrderState.customer state;
            OrderState.discount := OrderState.discount state;
            OrderState.deliveryCharge := OrderState.deliveryCharge state |}.
Proof. intros E. unfold orderReducer. now rewrite E. Qed.

Lemma orderReducer_UPDATE_CUSTOMER :
  Action.type action = "UPDATE_CUSTOMER" ->
  orderReducer state action =
  Return {| OrderState.items := OrderState.items state;
            OrderState.customer :=
              Action.payload action ∪ OrderState.customer state;
            OrderState.discount := OrderState.discount state;
            OrderState.deliveryCharge := OrderState.deliveryCharge state |}.
Proof. intros E. unfold orderReducer. now rewrite E. Qed.

Lemma orderReducer_default :
  Action.type action <> "ADD_ITEM" ->
  Action.type action <> "REMOVE_ITEM" ->
  Action.type action <> "UPDATE_CUSTOMER" ->
  orderReducer state action =
  Throw (Error ("Unhandled action type: " +:+ Action.type action)).
Proof.
  intros Ha Hr Hu. unfold orderReducer.
  apply String.eqb_neq in Ha, Hr, Hu. now rewrite Ha, Hr, Hu.
Qed.

End Branches.

(** A filter that keeps every element returns the list itself. *)
Lemma filter_all_kept {A : Type} (P : A -> Prop) `{!forall x, Decision (P x)}
      (l : list A) :
  Forall P l -> filter P l = l.
Proof.
  induction 1 as [|x l Hx _ IH]; [reflexivity|].
  rewrite filter_cons_True by assumption. now rewrite IH.
Qed.

(** ** Removing *)

(** C3: removing an identifier that no line item of the order carries
    returns the state unchanged and raises no error. *)
Theorem remove_absent_is_noop (state : OrderState.t) (action : Action.t) :
  Action.type action = "REMOVE_ITEM" ->
  (forall item, item ∈ OrderState.items state ->
                MenuItem.id item <> Action.id action) ->
  orderReducer state action = Return state.
Proof.
  intros Htype Habsent.
  rewrite orderReducer_REMOVE_ITEM by assumption.
  rewrite filter_all_kept by (apply Forall_forall; assumption).
  now destruct state.
Qed.

Lemma remove_absent_is_noop_witness :
  orderReducer
    {| OrderState.items := menuItems;
       OrderState.customer := ∅;
       OrderState.discount := 0;
       OrderState.deliveryCharge := 0 |}
    {| Action.type := "REMOVE_ITEM"; Action.item := MenuItem.mk 9 "" 0 "";
       Action.id := 7; Action.payload := ∅ |}
  = Return {| OrderState.items := menuItems;
              OrderState.customer := ∅;
              OrderState.discount := 0;
              OrderState.deliveryCharge := 0 |}.
Proof.
  apply remove_absent_is_noop; [reflexivity|].
  intros item Hin. cbn in Hin.
  repeat (apply elem_of_cons in Hin as [->|Hin]; [cbn; lia|]).
  now apply elem_of_nil in Hin.
Defined.

(** C9: a remove request deletes every line item carrying its identifier,
    not only the first: afterwards no line item carries it, and the line
    items with another identifier are the same sequence as before. *)
Theorem remove_deletes_every_match (state : OrderState.t) (action : Action.t) :
  Action.type action = "REMOVE_ITEM" ->
  exists state',
    orderReducer state action = Return state' /\
    Forall (fun item => MenuItem.id item <> Action.id action)
           (OrderState.items state') /\
    OrderState.items state' `sublist_of` OrderState.items state /\
    (forall item, MenuItem.id item <> Action.id action ->
                  item ∈ OrderState.items state ->
                  item ∈ OrderState.items state') /\
    filter (fun item => MenuItem.id item <> Action.id action)
           (OrderState.items state')
    = filter (fun item => MenuItem.id item <> Action.id action)
             (OrderState.items state).
Proof.
  intros Htype. eexists. split; [now apply orderReducer_REMOVE_ITEM|]. cbn.
  split; [|split; [|split]].
  - apply Forall_forall. intros item Hin.
    now apply list_elem_of_filter in Hin as [Hne _].
  - apply sublist_filter.
  - intros item Hne Hin. now apply list_elem_of_filter.
  - apply filter_all_kept, Forall_forall. intros item Hin.
    now apply list_elem_of_filter in Hin as [Hne _].
Qed.

Lemma remove_deletes_every_match_witness :
  exists state',
    orderReducer
      {| OrderState.items := menuItems ++ menuItems;
         OrderState.customer := ∅;
         OrderState.discount := 0;
         OrderState.deliveryCharge := 0 |}
      {| Action.type := "REMOVE_ITEM"; Action.item := MenuItem.mk 9 "" 0 "";
         Action.id := 3; Action.payload := ∅ |}
    = Return state' /\
    Forall (fun item => MenuItem.id item <> 3%Z) (OrderState.items state').
Proof.
  destruct (remove_deletes_every_match
              {| OrderState.items := menuItems ++ menuItems;
                 OrderState.customer := ∅;
                 OrderState.discount := 0;
                 OrderState.deliveryCharge := 0 |}
              {| Action.type := "REMOVE_ITEM";
                 Action.item := MenuItem.mk 9 "" 0 "";
                 Action.id := 3; Action.payload := ∅ |} eq_refl)
    as (state' & Hret & Hnone & _).
  exists state'. split; assumption.
Defined.

(** ** Unknown requests *)

(** C4: a request whose tag is none of the three recognised ones makes the
    reducer throw an [Error] naming the tag; no state is returned. *)
Theorem unknown_action_throws (state : OrderState.t) (action : Action.t) :
  Action.type action <> "ADD_ITEM" ->
  Action.type action <> "REMOVE_ITEM" ->
  Action.type action <> "UPDATE_CUSTOMER" ->
  orderReducer state action =
    Throw (Error ("Unhandled action type: " +:+ Action.type action)) /\
  ~ returns (orderReducer state action).
Proof.
  intros Ha Hr Hu. rewrite orderReducer_default by assumption.
  split; [reflexivity|]. intros [state' H]. discriminate H.
Qed.

Lemma unknown_action_throws_witness :
  orderReducer initialState
    {| Action.type := "CLEAR_ORDER"; Action.item := MenuItem.mk 1 "" 0 "";
       Action.id := 1; Action.payload := ∅ |}
  = Throw (Error "Unhandled action type: CLEAR_ORDER").
Proof.
  apply (unknown_action_throws initialState
           {| Action.type := "CLEAR_ORDER"; Action.item := MenuItem.mk 1 "" 0 "";
              Action.id := 1; Action.payload := ∅ |});
    cbn; discriminate.
Defined.

(** ** Updating the customer *)

(** C5: an update request returns a state whose customer record has the
    fields of the partial record at their new values and every other field
    at its previous value; updating [{name:"A", phone:"1", address:""}]
    with [{address:"X"}] gives [{name:"A", phone:"1", address:"X"}]. *)
Theorem update_customer_merges (state : OrderState.t) (action : Action.t) :
  Action.type action = "UPDATE_CUSTOMER" ->
  exists state',
    orderReducer state action = Return state' /\
    (forall field value,
        Action.payload action !! field = Some value ->
        OrderState.customer state' !! field = Some value) /\
    (forall field,
        Action.payload action !! field = None ->
        OrderState.customer state' !! field
        = OrderState.customer state !! field) /\
    (OrderState.customer state
       = {[ "name" := "A"; "phone" := "1"; "address" := "" ]} ->
     Action.payload action = {[ "address" := "X" ]} ->
     OrderState.customer state'
       = {[ "name" := "A"; "phone" := "1"; "address" := "X" ]}).
Proof.
  intros Htype. eexists. split; [now apply orderReducer_UPDATE_CUSTOMER|]. cbn.
  split; [|split].
  - intros field value Hfield. now apply lookup_union_Some_l.
  - intros field Hfield. now apply lookup_union_r.
  - intros -> ->. vm_compute. reflexivity.
Qed.

Lemma update_customer_merges_witness :
  exists state',
    orderReducer
      {| OrderState.items := [];
         OrderState.customer := {[ "name" := "A"; "phone" := "1"; "address" := "" ]};
         OrderState.discount := 0;
         OrderState.deliveryCharge := 0 |}
      {| Action.type := "UPDATE_CUSTOMER"; Action.item := MenuItem.mk 1 "" 0 "";
         Action.id := 1; Action.payload := {[ "address" := "X" ]} |}
    = Return state' /\
    OrderState.customer state'
      = {[ "name" := "A"; "phone" := "1"; "address" := "X" ]}.
Proof.
  destruct (update_customer_merges
              {| OrderState.items := [];
                 OrderState.customer :=
                   {[ "name" := "A"; "phone" := "1"; "address" := "" ]};
                 OrderState.discount := 0;
                 OrderState.deliveryCharge := 0 |}
              {| Action.type := "UPDATE_CUSTOMER";
                 Action.item := MenuItem.mk 1 "" 0 "";
                 Action.id := 1; Action.payload := {[ "address" := "X" ]} |}
              eq_refl)
    as (state' & Hret & _ & _ & Hexample).
  exists state'. split; [assumption|]. now apply Hexample.
Defined.

(** ** What each request leaves alone *)

(** C10: add and remove requests leave the customer record, the discount and
    the delivery charge as they were; an update request leaves the item
    sequence, the discount and the delivery charge as they were. *)
Theorem requests_frame (state : OrderState.t) (action : Action.t) :
  (Action.type action = "ADD_ITEM" \/ Action.type action = "REMOVE_ITEM" ->
   exists state',
     orderReducer state action = Return state' /\
     OrderState.customer state' = OrderState.customer state /\
     OrderState.discount state' = OrderState.discount state /\
     OrderState.deliveryCharge state' = OrderState.deliveryCharge state) /\
  (Action.type action = "UPDATE_CUSTOMER" ->
   exists state',
     orderReducer state action = Return state' /\
     OrderState.items state' = OrderState.items state /\
     OrderState.discount state' = OrderState.discount state /\
     OrderState.deliveryCharge state' = OrderState.deliveryCharge state).
Proof.
  split.
  - intros [Htype|Htype]; eexists.
    + split; [now apply orderReducer_ADD_ITEM|]. cbn. auto.
    + split; [now apply orderReducer_REMOVE_ITEM|]. cbn. auto.
  - intros Htype. eexists. split; [now apply orderReducer_UPDATE_CUSTOMER|].
    cbn. auto.
Qed.

Lemma requests_frame_witness :
  (exists state',
      orderReducer initialState
        {| Action.type := "ADD_ITEM"; Action.item := MenuItem.mk 3 "Fries" 2 "Sides";
           Action.id := 0; Action.payload := ∅ |} = Return state' /\
      OrderState.customer state' = OrderState.customer initialState /\
      OrderState.discount state' = OrderState.discount initialState /\
      OrderState.deliveryCharge state' = OrderState.deliveryCharge initialState) /\
  (exists state',
      orderReducer initialState
        {| Action.type := "UPDATE_CUSTOMER";
           Action.item := MenuItem.mk 3 "Fries" 2 "Sides";
           Action.id := 0; Action.payload := {[ "name" := "Ann" ]} |}
      = Return state' /\
      OrderState.items state' = OrderState.items initialState /\
      OrderState.discount state' = OrderState.discount initialState /\
      OrderState.deliveryCharge state' = OrderState.deliveryCharge initialState).
Proof.
  split.
  - apply (requests_frame initialState
             {| Action.type := "ADD_ITEM";
                Action.item := MenuItem.mk 3 "Fries" 2 "Sides";
                Action.id := 0; Action.payload := ∅ |}).
    left. reflexivity.
  - apply (requests_frame initialState
             {| Action.type := "UPDATE_CUSTOMER";
                Action.item := MenuItem.mk 3 "Fries" 2 "Sides";
                Action.id := 0; Action.payload := {[ "name" := "Ann" ]} |}).
    reflexivity.
Defined.

(** ** Totals *)

(** On an array of line items the callback of [reduce] never throws, and the
    fold is the left-to-right float sum. *)
Lemma reduce_prices (items : list MenuItem.t) (init : float) :
  reduce (fun sum item =>
            item ← receiver item;
            Return (sum + MenuItem.price item)%float)
         (map val items) init
  = Return (fold_left PrimFloat.add (map MenuItem.price items) init).
Proof.
  revert init. induction items as [|item items IH]; intros init.
  - reflexivity.
  - cbn. apply IH.
Qed.

Lemma calculateTotals_typed (items : list MenuItem.t) (discount deliveryCharge : float) :
  calculateTotals (val (map val items)) (val discount) (val deliveryCharge)
  = Return {| Totals.subtotal := sum_of_prices items;
              Totals.total :=
                (sum_of_prices items - discount + deliveryCharge)%float |}.
Proof.
  unfold calculateTotals. cbn. rewrite reduce_prices. reflexivity.
Qed.

Lemma sum_of_prices_snoc (items : list MenuItem.t) (item : MenuItem.t) :
  sum_of_prices (items ++ [item])
  = (sum_of_prices items + MenuItem.price item)%float.
Proof.
  unfold sum_of_prices. rewrite map_app, fold_left_app. reflexivity.
Qed.

(** C1: on a sequence of line items, a discount and a delivery charge,
    [calculateTotals] returns as subtotal the sum of the unit prices (0 for
    the empty sequence, and the sum of a sequence extended by one item is
    the sum of the sequence plus the price of the item) and as total
    subtotal - discount + deliveryCharge; [calculateTotals([], 0, 0)] is
    [{subtotal: 0, total: 0}] and [calculateTotals([{price: 10}], 2, 1.5)]
    is [{subtotal: 10, total: 9.5}]. *)
Theorem calculateTotals_subtotal_total :
  (forall (items : list MenuItem.t) (discount deliveryCharge : float),
      calculateTotals (val (map val items)) (val discount) (val deliveryCharge)
      = Return {| Totals.subtotal := sum_of_prices items;
                  Totals.total :=
                    (sum_of_prices items - discount + deliveryCharge)%float |}) /\
  sum_of_prices [] = 0%float /\
  (forall items item,
      sum_of_prices (items ++ [item])
      = (sum_of_prices items + MenuItem.price item)%float) /\
  calculateTotals (val []) (val 0%float) (val 0%float)
  = Return {| Totals.subtotal := 0; Totals.total := 0 |} /\
  (forall id name category,
      calculateTotals (val [val (MenuItem.mk id name 10 category)])
                      (val 2%float) (val 1.5%float)
      = Return {| Totals.subtotal := 10; Totals.total := 9.5 |}).
Proof.
  split; [exact calculateTotals_typed|].
  split; [reflexivity|].
  split; [exact sum_of_prices_snoc|].
  split; reflexivity.
Qed.

(** C7: two calls of [calculateTotals] with the same item sequence, the same
    discount and the same delivery charge have the same outcome. *)
Theorem calculateTotals_deterministic
        (items1 items2 : nullable (list (nullable MenuItem.t)))
        (discount1 discount2 deliveryCharge1 deliveryCharge2 : nullable float) :
  items1 = items2 ->
  discount1 = discount2 ->
  deliveryCharge1 = deliveryCharge2 ->
  calculateTotals items1 discount1 deliveryCharge1
  = calculateTotals items2 discount2 deliveryCharge2.
Proof. intros -> -> ->. reflexivity. Qed.

Lemma calculateTotals_deterministic_witness :
  calculateTotals (val (map val menuItems)) (val 1%float) undefined
  = calculateTotals (val (map val menuItems)) (val 1%float) undefined.
Proof.
  apply calculateTotals_deterministic; reflexivity.
Defined.

(** ** Adding *)

(** C6: an add request always succeeds and appends its item at the end of
    the item sequence; dispatched twice with the same catalog item it leaves
    two line items at the end of the sequence, and the subtotal counts the
    unit price once for each. *)
Theorem add_item_appends (state : OrderState.t) (action : Action.t) :
  Action.type action = "ADD_ITEM" ->
  exists state1 state2,
    orderReducer state action = Return state1 /\
    OrderState.items state1 = OrderState.items state ++ [Action.item action] /\
    dispatchAll state [action; action] = Return state2 /\
    OrderState.items state2
      = OrderState.items state ++ [Action.item action; Action.item action] /\
    length (OrderState.items state2) = S (S (length (OrderState.items state))) /\
    exists totals,
      totalsOf state2 = Return totals /\
      Totals.subtotal totals
      = (sum_of_prices (OrderState.items state)
         + MenuItem.price (Action.item action)
         + MenuItem.price (Action.item action))%float.
Proof.
  intros Htype. do 2 eexists.
  split; [now apply orderReducer_ADD_ITEM|].
  split; [reflexivity|].
  split.
  { unfold dispatchAll. cbn.
    rewrite orderReducer_ADD_ITEM by assumption. cbn.
    rewrite orderReducer_ADD_ITEM by assumption. cbn. reflexivity. }
  cbn. split; [now rewrite <- app_assoc|].
  split; [rewrite !length_app; cbn; lia|].
  eexists. split; [apply calculateTotals_typed|]. cbn.
  now rewrite !sum_of_prices_snoc.
Qed.

Lemma add_item_appends_witness :
  exists state2,
    dispatchAll initialState
      [ {| Action.type := "ADD_ITEM"; Action.item := MenuItem.mk 4 "Soda" 2 "Drinks";
           Action.id := 0; Action.payload := ∅ |};
        {| Action.type := "ADD_ITEM"; Action.item := MenuItem.mk 4 "Soda" 2 "Drinks";
           Action.id := 0; Action.payload := ∅ |} ]
    = Return state2 /\
    OrderState.items state2
      = [MenuItem.mk 4 "Soda" 2 "Drinks"; MenuItem.mk 4 "Soda" 2 "Drinks"].
Proof.
  destruct (add_item_appends initialState
              {| Action.type := "ADD_ITEM";
                 Action.item := MenuItem.mk 4 "Soda" 2 "Drinks";
                 Action.id := 0; Action.payload := ∅ |} eq_refl)
    as (state1 & state2 & _ & _ & Hrun & Hitems & _).
  exists state2. split; assumption.
Defined.

(** ** Calls with missing or malformed arguments *)

(** The fold over an array whose elements may be [undefined] or [null]:
    it returns when every element is a line item and throws a TypeError at
    the first element that is not. *)
Lemma reduce_prices_nullable (array : list (nullable MenuItem.t)) (init : float) :
  (Forall is_val array /\
   returns (reduce (fun sum item =>
                      item ← receiver item;
                      Return (sum + MenuItem.price item)%float)
                   array init)) \/
  (~ Forall is_val array /\
   reduce (fun sum item =>
             item ← receiver item;
             Return (sum + MenuItem.price item)%float)
          array init = Throw TypeError).
Proof.
  revert init. induction array as [|item array IH]; intros init.
  - left. split; [constructor|]. now eexists.
  - destruct item as [| |item]; cbn.
    + right. split; [|reflexivity]. intros H. now inversion H.
    + right. split; [|reflexivity]. intros H. now inversion H.
    + destruct (IH (init + MenuItem.price item)%float) as [[Hall Hret]|[Hnot Hthrow]].
      * left. split; [constructor; [exact I|assumption]|assumption].
      * right. split; [|assumption]. intros H. apply Hnot. now inversion H.
Qed.

(** C8, as the code has it, for an item list that is omitted, [null] or an
    array whose elements are line items, [undefined] or [null], and
    adjustments that are omitted, [null] or numbers.  An omitted
    ([undefined]) item list is taken as the empty sequence and an omitted
    discount or delivery charge as zero; a [null] discount or delivery
    charge enters the total as zero too.  On an omitted list and on an
    array of line items the call returns the two figures and raises
    nothing.  It throws a TypeError on a [null] item list and on an array
    with an [undefined] or [null] element, and in no other case. *)
Theorem calculateTotals_defaults_and_failures
        (items : nullable (list (nullable MenuItem.t)))
        (discount deliveryCharge : nullable float) :
  calculateTotals undefined discount deliveryCharge
    = calculateTotals (val []) discount deliveryCharge /\
  calculateTotals items undefined deliveryCharge
    = calculateTotals items (val 0%float) deliveryCharge /\
  calculateTotals items discount undefined
    = calculateTotals items discount (val 0%float) /\
  calculateTotals items null deliveryCharge
    = calculateTotals items (val 0%float) deliveryCharge /\
  calculateTotals items discount null
    = calculateTotals items discount (val 0%float) /\
  (forall lines,
      items = val (map val lines) \/ (items = undefined /\ lines = []) ->
      calculateTotals items discount deliveryCharge
      = Return {| Totals.subtotal := sum_of_prices lines;
                  Totals.total :=
                    (sum_of_prices lines - amount discount
                     + amount deliveryCharge)%float |}) /\
  (returns (calculateTotals items discount deliveryCharge) <->
   items <> null /\ forall array, items = val array -> Forall is_val array) /\
  (returns (calculateTotals items discount deliveryCharge) \/
   calculateTotals items discount deliveryCharge = Throw TypeError).
Proof.
  split; [reflexivity|]. split; [reflexivity|]. split; [reflexivity|].
  split; [reflexivity|]. split; [reflexivity|].
  split.
  { intros lines [->|[-> ->]].
    - unfold calculateTotals. cbn. rewrite reduce_prices. cbn.
      now destruct discount, deliveryCharge.
    - now destruct discount, deliveryCharge. }
  destruct items as [| |array].
  - split; [|left; now eexists].
    split; [intros _; split; [discriminate|discriminate]|intros _; now eexists].
  - split; [|right; reflexivity].
    split; [intros [t H]; discriminate H|intros [H _]; now elim H].
  - unfold calculateTotals. cbn.
    destruct (reduce_prices_nullable array 0%float) as [[Hall [s Hs]]|[Hnot Hthrow]].
    + rewrite Hs. cbn. split; [|left; now eexists].
      split; [intros _; split; [discriminate|]|intros _; now eexists].
      intros array' [= <-]. assumption.
    + rewrite Hthrow. cbn. split; [|right; reflexivity].
      split; [intros [t H]; discriminate H|].
      intros [_ H]. elim Hnot. now apply H.
Qed.

Lemma calculateTotals_defaults_and_failures_witness :
  calculateTotals (val (map val [MenuItem.mk 2 "Pizza" 9 "Pizza"]))
                  null (val 1.5%float)
  = Return {| Totals.subtotal := 9; Totals.total := 10.5 |}.
Proof.
  destruct (calculateTotals_defaults_and_failures
              (val (map val [MenuItem.mk 2 "Pizza" 9 "Pizza"]))
              null (val 1.5%float))
    as (_ & _ & _ & _ & _ & Hvalue & _).
  rewrite (Hvalue [MenuItem.mk 2 "Pizza" 9 "Pizza"]) by (left; reflexivity).
  reflexivity.
Defined.

(** C8 as stated fails: a [null] item list makes the call throw. *)
Lemma calculateTotals_null_items_throws :
  calculateTotals null (val 0%float) (val 0%float) = Throw TypeError /\
  ~ returns (calculateTotals null (val 0%float) (val 0%float)).
Proof.
  split; [reflexivity|]. intros [totals H]. discriminate H.
Qed.

(** ** Sequences of add and remove requests *)

Lemma add_or_remove_cases (action : Action.t) :
  add_or_remove action ->
  (Action.type action = "ADD_ITEM" /\
   is_add action = true /\ is_remove action = false) \/
  (Action.type action = "REMOVE_ITEM" /\
   is_add action = false /\ is_remove action = true).
Proof.
  unfold add_or_remove, is_add, is_remove.
  destruct (String.eqb_spec (Action.type action) "ADD_ITEM") as [E|E].
  - intros _. left. rewrite E. auto.
  - destruct (String.eqb_spec (Action.type action) "REMOVE_ITEM") as [E'|E'].
    + intros _. right. auto.
    + discriminate.
Qed.

Section Unfolding.

Variables (state state' : OrderState.t) (action : Action.t)
          (rest : list Action.t).
Hypothesis Hstep : orderReducer state action = Return state'.

Lemma dispatchAll_cons :
  dispatchAll state (action :: rest) = dispatchAll state' rest.
Proof. unfold dispatchAll. cbn. now rewrite Hstep. Qed.

Lemma history_cons :
  history state (action :: rest) = (state, action) :: history state' rest.
Proof. cbn. now rewrite Hstep. Qed.

Lemma deleted_cons :
  deleted state (action :: rest)
  = deleted_by (state, action) + deleted state' rest.
Proof. unfold deleted. now rewrite history_cons. Qed.

Lemma successful_removes_cons :
  successful_removes state (action :: rest)
  = (if successful_remove (state, action) then 1 else 0)
    + successful_removes state' rest.
Proof.
  unfold successful_removes. rewrite history_cons, filter_cons.
  destruct (successful_remove (state, action)); now case_decide.
Qed.

Lemma fresh_adds_cons :
  fresh_adds state (action :: rest) ->
  fresh_add (state, action) /\ fresh_adds state' rest.
Proof.
  unfold fresh_adds. rewrite history_cons. intros H. now inversion H.
Qed.

End Unfolding.

Lemma adds_cons (action : Action.t) (rest : list Action.t) :
  adds (action :: rest) = (if is_add action then 1 else 0) + adds rest.
Proof.
  unfold adds. rewrite filter_cons.
  destruct (is_add action); now case_decide.
Qed.

Lemma added_cons (action : Action.t) (rest : list Action.t) :
  added (action :: rest)
  = (if is_add action then [Action.item action] else []) ++ added rest.
Proof.
  unfold added. rewrite filter_cons.
  destruct (is_add action); now case_decide.
Qed.

(** The kept and the deleted line items of a remove make up the sequence. *)
Lemma length_kept_deleted (id : Z) (items : list MenuItem.t) :
  length (filter (fun item => MenuItem.id item <> id) items)
  + length (filter (fun item => MenuItem.id item = id) items)
  = length items.
Proof.
  induction items as [|item items IH]; [reflexivity|].
  rewrite !filter_cons.
  destruct (decide (MenuItem.id item = id)) as [E|E];
    repeat case_decide; try contradiction; cbn; lia.
Qed.

Lemma no_match_iff (id : Z) (items : list MenuItem.t) :
  filter (fun item => MenuItem.id item = id) items = [] <->
  forall item, item ∈ items -> MenuItem.id item <> id.
Proof.
  induction items as [|item items IH].
  - split; [|reflexivity]. intros _ item Hin. now apply elem_of_nil in Hin.
  - rewrite filter_cons. case_decide as E.
    + split; [discriminate|]. intros H. elim (H item); [left|assumption].
    + rewrite IH. split.
      * intros H item' Hin. apply elem_of_cons in Hin as [->|Hin]; auto.
      * intros H item' Hin. apply H. now right.
Qed.

(** Among line items with pairwise distinct identifiers at most one carries
    a given identifier. *)
Lemma at_most_one_match (id : Z) (items : list MenuItem.t) :
  NoDup (map MenuItem.id items) ->
  length (filter (fun item => MenuItem.id item = id) items) <= 1.
Proof.
  induction items as [|item items IH]; [cbn; lia|].
  intros Hnodup. cbn in Hnodup. apply NoDup_cons in Hnodup as [Hnotin Hnodup].
  rewrite filter_cons. case_decide as E; [|now apply IH].
  assert (filter (fun item => MenuItem.id item = id) items = []) as ->; [|cbn; lia].
  apply no_match_iff. intros item' Hin E'.
  apply Hnotin. rewrite E, <- E'. now apply list_elem_of_fmap_2.
Qed.

(** From any state: the sequence runs to the end, the lengths balance, and
    the final items are a subsequence of the initial ones followed by the
    added ones. *)
Lemma add_remove_from (actions : list Action.t) :
  forall state,
    Forall add_or_remove actions ->
    exists state',
      dispatchAll state actions = Return state' /\
      length (OrderState.items state') + deleted state actions
      = length (OrderState.items state) + adds actions /\
      OrderState.items state'
        `sublist_of` OrderState.items state ++ added actions.
Proof.
  induction actions as [|action rest IH]; intros state Hall.
  - exists state. split; [reflexivity|]. split.
    + cbn. lia.
    + rewrite app_nil_r. reflexivity.
  - apply Forall_cons in Hall as [Haction Hrest].
    destruct (add_or_remove_cases action Haction)
      as [(Htype & Hadd & Hrem)|(Htype & Hadd & Hrem)].
    + pose proof (orderReducer_ADD_ITEM state action Htype) as Hstep.
      at_next_state Hstep IH.
      destruct (IH Hrest) as (state' & Hrun & Hlen & Hsub).
      exists state'. cbn in Hlen, Hsub.
      rewrite (dispatchAll_cons _ _ _ _ Hstep), (deleted_cons _ _ _ _ Hstep).
      rewrite adds_cons, added_cons, Hadd.
      unfold deleted_by. cbn [fst snd]. rewrite Hrem.
      split; [assumption|]. split.
      * rewrite length_app in Hlen. cbn in Hlen. lia.
      * now rewrite <- app_assoc in Hsub.
    + pose proof (orderReducer_REMOVE_ITEM state action Htype) as Hstep.
      at_next_state Hstep IH.
      destruct (IH Hrest) as (state' & Hrun & Hlen & Hsub).
      exists state'. cbn in Hlen, Hsub.
      rewrite (dispatchAll_cons _ _ _ _ Hstep), (deleted_cons _ _ _ _ Hstep).
      rewrite adds_cons, added_cons, Hadd.
      unfold deleted_by, matching. cbn [fst snd]. rewrite Hrem.
      split; [assumption|]. split.
      * pose proof (length_kept_deleted (Action.id action)
                                        (OrderState.items state)). lia.
      * etransitivity; [exact Hsub|].
        apply sublist_app; [apply sublist_filter|reflexivity].
Qed.

(** While the identifiers in the order stay pairwise distinct, every
    successful remove deletes exactly one line item. *)
Lemma deleted_successful (actions : list Action.t) :
  forall state,
    Forall add_or_remove actions ->
    NoDup (map MenuItem.id (OrderState.items state)) ->
    fresh_adds state actions ->
    deleted state actions = successful_removes state actions.
Proof.
  induction actions as [|action rest IH]; intros state Hall Hnodup Hfresh.
  - reflexivity.
  - apply Forall_cons in Hall as [Haction Hrest].
    destruct (add_or_remove_cases action Haction)
      as [(Htype & Hadd & Hrem)|(Htype & Hadd & Hrem)].
    + pose proof (orderReducer_ADD_ITEM state action Htype) as Hstep.
      apply (fresh_adds_cons _ _ _ _ Hstep) in Hfresh as [Hnew Hfresh].
      rewrite (deleted_cons _ _ _ _ Hstep), (successful_removes_cons _ _ _ _ Hstep).
      unfold deleted_by, successful_remove. cbn [fst snd]. rewrite Hrem. cbn [andb].
      f_equal. apply IH; [assumption| |assumption]. cbn.
      rewrite map_app. cbn. apply NoDup_app. split; [assumption|]. split.
      * intros id Hin Hin'. apply list_elem_of_singleton in Hin'. subst id.
        apply (list_elem_of_fmap_1 MenuItem.id) in Hin as (item & Hid & Hin).
        specialize (Hnew Hadd). cbn [fst snd] in Hnew. unfold matching in Hnew.
        rewrite no_match_iff in Hnew. elim (Hnew item Hin). now symmetry.
      * apply NoDup_singleton.
    + pose proof (orderReducer_REMOVE_ITEM state action Htype) as Hstep.
      apply (fresh_adds_cons _ _ _ _ Hstep) in Hfresh as [_ Hfresh].
      rewrite (deleted_cons _ _ _ _ Hstep), (successful_removes_cons _ _ _ _ Hstep).
      unfold deleted_by, successful_remove. cbn [fst snd]. rewrite Hrem. cbn [andb].
      f_equal.
      * pose proof (at_most_one_match (Action.id action) _ Hnodup) as Hle.
        unfold matching.
        destruct (filter (fun item => MenuItem.id item = Action.id action)
                         (OrderState.items state)) as [|item [|item' items]];
          cbn in *; [reflexivity|reflexivity|lia].
      * apply IH; [assumption| |assumption]. cbn.
        eapply sublist_NoDup; [exact Hnodup|].
        apply (fmap_sublist MenuItem.id), sublist_filter.
Qed.

(** C2, as the code has it: a sequence of add and remove requests dispatched
    from the empty order runs to the end; the length of the resulting item
    sequence is the number of adds minus the number of line items the
    removes deleted (a remove deletes every line item with its identifier);
    when no add inserts an identifier already in the order this is the
    number of adds minus the number of successful removes; and the
    surviving items are a subsequence of the added ones, in the order of
    adding. *)
Theorem add_remove_sequences (actions : list Action.t) :
  Forall add_or_remove actions ->
  exists state',
    dispatchAll initialState actions = Return state' /\
    length (OrderState.items state') + deleted initialState actions
    = adds actions /\
    (fresh_adds initialState actions ->
     length (OrderState.items state') + successful_removes initialState actions
     = adds actions) /\
    OrderState.items state' `sublist_of` added actions.
Proof.
  intros Hall.
  destruct (add_remove_from actions initialState Hall)
    as (state' & Hrun & Hlen & Hsub).
  change (length (OrderState.items initialState) + adds actions)
    with (adds actions) in Hlen.
  exists state'. split; [assumption|]. split; [exact Hlen|]. split.
  - intros Hfresh.
    rewrite <- (deleted_successful actions initialState Hall); trivial.
    constructor.
  - exact Hsub.
Qed.

Lemma add_remove_sequences_witness :
  exists state',
    dispatchAll initialState
      [ Action.mk "ADD_ITEM" (MenuItem.mk 1 "Burger" 6 "Burgers") 0 ∅;
        Action.mk "ADD_ITEM" (MenuItem.mk 3 "Fries" 3 "Sides") 0 ∅;
        Action.mk "REMOVE_ITEM" (MenuItem.mk 1 "Burger" 6 "Burgers") 1 ∅ ]
    = Return state' /\
    length (OrderState.items state')
    + successful_removes initialState
        [ Action.mk "ADD_ITEM" (MenuItem.mk 1 "Burger" 6 "Burgers") 0 ∅;
          Action.mk "ADD_ITEM" (MenuItem.mk 3 "Fries" 3 "Sides") 0 ∅;
          Action.mk "REMOVE_ITEM" (MenuItem.mk 1 "Burger" 6 "Burgers") 1 ∅ ]
    = 2.
Proof.
  destruct (add_remove_sequences
              [ Action.mk "ADD_ITEM" (MenuItem.mk 1 "Burger" 6 "Burgers") 0 ∅;
                Action.mk "ADD_ITEM" (MenuItem.mk 3 "Fries" 3 "Sides") 0 ∅;
                Action.mk "REMOVE_ITEM" (MenuItem.mk 1 "Burger" 6 "Burgers") 1 ∅ ])
    as (state' & Hrun & _ & Hfresh & _).
  - repeat constructor.
  - exists state'. split; [exact Hrun|]. apply Hfresh.
    unfold fresh_adds. cbn.
    repeat constructor; unfold fresh_add; cbn; intros Hadd;
      first [reflexivity | discriminate Hadd].
Defined.

(** C2 as stated fails: the same catalog item added twice and removed once
    leaves the order empty, although two adds and one successful remove
    took place. *)
Lemma duplicate_adds_one_remove :
  Forall add_or_remove
    [ Action.mk "ADD_ITEM" (MenuItem.mk 1 "Burger" 6 "Burgers") 0 ∅;
      Action.mk "ADD_ITEM" (MenuItem.mk 1 "Burger" 6 "Burgers") 0 ∅;
      Action.mk "REMOVE_ITEM" (MenuItem.mk 1 "Burger" 6 "Burgers") 1 ∅ ] /\
  dispatchAll initialState
    [ Action.mk "ADD_ITEM" (MenuItem.mk 1 "Burger" 6 "Burgers") 0 ∅;
      Action.mk "ADD_ITEM" (MenuItem.mk 1 "Burger" 6 "Burgers") 0 ∅;
      Action.mk "REMOVE_ITEM" (MenuItem.mk 1 "Burger" 6 "Burgers") 1 ∅ ]
  = Return initialState /\
  adds
    [ Action.mk "ADD_ITEM" (MenuItem.mk 1 "Burger" 6 "Burgers") 0 ∅;
      Action.mk "ADD_ITEM" (MenuItem.mk 1 "Burger" 6 "Burgers") 0 ∅;
      Action.mk "REMOVE_ITEM" (MenuItem.mk 1 "Burger" 6 "Burgers") 1 ∅ ] = 2 /\
  successful_removes initialState
    [ Action.mk "ADD_ITEM" (MenuItem.mk 1 "Burger" 6 "Burgers") 0 ∅;
      Action.mk "ADD_ITEM" (MenuItem.mk 1 "Burger" 6 "Burgers") 0 ∅;
      Action.mk "REMOVE_ITEM" (MenuItem.mk 1 "Burger" 6 "Burgers") 1 ∅ ] = 1 /\
  length (OrderState.items initialState) <> 2 - 1.
Proof.
  split; [repeat constructor|].
  split; [vm_compute; reflexivity|].
  split; [vm_compute; reflexivity|].
  split; [vm_compute; reflexivity|].
  cbn. lia.
Qed.

(** ** How requests compose *)

Lemma dispatchAll_one (state : OrderState.t) (action : Action.t) :
  dispatchAll state [action] = orderReducer state action.
Proof.
  unfold dispatchAll. cbn. now destruct (orderReducer state action).
Qed.

Lemma dispatchAll_two (state state1 : OrderState.t) (a b : Action.t) :
  orderReducer state a = Return state1 ->
  dispatchAll state [a; b] = orderReducer state1 b.
Proof.
  intros Hstep. rewrite (dispatchAll_cons _ _ _ _ Hstep).
  apply dispatchAll_one.
Qed.

Lemma dispatchAll_app (actions1 actions2 : list Action.t) :
  forall state,
    dispatchAll state (actions1 ++ actions2)
    = bind (dispatchAll state actions1)
           (fun state' => dispatchAll state' actions2).
Proof.
  induction actions1 as [|action rest IH]; intros state; [reflexivity|].
  unfold dispatchAll in *. cbn.
  destruct (orderReducer state action) as [state1|e]; cbn; [apply IH|reflexivity].
Qed.

Lemma filter_swap {A : Type} (P Q : A -> Prop)
      `{!forall x, Decision (P x)} `{!forall x, Decision (Q x)} (l : list A) :
  filter P (filter Q l) = filter Q (filter P l).
Proof.
  induction l as [|x l IH]; [reflexivity|].
  rewrite !(filter_cons _ x).
  destruct (decide (P x)), (decide (Q x));
    rewrite ?filter_cons; repeat case_decide; try contradiction; now rewrite IH.
Qed.

Lemma filter_twice {A : Type} (P : A -> Prop) `{!forall x, Decision (P x)}
      (l : list A) :
  filter P (filter P l) = filter P l.
Proof.
  apply filter_all_kept, Forall_forall. intros x Hin.
  now apply list_elem_of_filter in Hin as [HP _].
Qed.

(** X1: how a sequence of requests ends: it returns a state exactly when every
    request carries a recognised tag, and otherwise throws the error of the
    first request that does not (the requests after it are not applied). *)
Theorem dispatchAll_returns_iff_recognised :
  (forall actions state,
      returns (dispatchAll state actions)
      <-> Forall (fun a => recognised a = true) actions) /\
  (forall before unknown after state,
      Forall (fun a => recognised a = true) before ->
      recognised unknown = false ->
      dispatchAll state (before ++ unknown :: after)
      = Throw (Error ("Unhandled action type: " +:+ Action.type unknown))).
Proof.
  assert (Hstep : forall state action,
             (recognised action = true /\ returns (orderReducer state action)) \/
             (recognised action = false /\
              orderReducer state action
              = Throw (Error ("Unhandled action type: " +:+ Action.type action)))).
  { intros state action. unfold recognised, orderReducer.
    destruct (String.eqb (Action.type action) "ADD_ITEM");
      [left; split; [reflexivity|now eexists]|].
    destruct (String.eqb (Action.type action) "REMOVE_ITEM");
      [left; split; [reflexivity|now eexists]|].
    destruct (String.eqb (Action.type action) "UPDATE_CUSTOMER");
      [left; split; [reflexivity|now eexists]|].
    right. split; reflexivity. }
  assert (Hall : forall actions state,
             Forall (fun a => recognised a = true) actions ->
             returns (dispatchAll state actions)).
  { induction actions as [|action rest IH]; intros state Hrec.
    - now exists state.
    - apply Forall_cons in Hrec as [Ha Hrest].
      destruct (Hstep state action) as [[_ [state1 H1]]|[Hno _]]; [|congruence].
      rewrite (dispatchAll_cons _ _ _ _ H1). now apply IH. }
  split.
  - intros actions state. split; [|apply Hall].
    revert state. induction actions as [|action rest IH]; intros state Hret.
    + constructor.
    + destruct (Hstep state action) as [[Hyes [state1 H1]]|[_ Hthrow]].
      * rewrite (dispatchAll_cons _ _ _ _ H1) in Hret.
        constructor; [assumption|]. now apply (IH state1).
      * unfold dispatchAll in Hret. cbn in Hret. rewrite Hthrow in Hret.
        destruct Hret as [s Hs]. discriminate Hs.
  - intros before unknown after state Hbefore Hunknown.
    rewrite dispatchAll_app.
    destruct (Hall before state Hbefore) as [state1 ->]. cbn.
    destruct (Hstep state1 unknown) as [[Hyes _]|[_ Hthrow]]; [congruence|].
    unfold dispatchAll. cbn. now rewrite Hthrow.
Qed.

(** X2: two removes may be dispatched in either order, and a remove dispatched a
    second time changes nothing. *)
Theorem removes_commute_and_repeat (state : OrderState.t) (r1 r2 : Action.t) :
  Action.type r1 = "REMOVE_ITEM" ->
  Action.type r2 = "REMOVE_ITEM" ->
  dispatchAll state [r1; r2] = dispatchAll state [r2; r1] /\
  dispatchAll state [r1; r1] = orderReducer state r1.
Proof.
  intros H1 H2.
  rewrite (dispatchAll_two _ _ r1 r2 (orderReducer_REMOVE_ITEM state r1 H1)).
  rewrite (dispatchAll_two _ _ r2 r1 (orderReducer_REMOVE_ITEM state r2 H2)).
  rewrite (dispatchAll_two _ _ r1 r1 (orderReducer_REMOVE_ITEM state r1 H1)).
  rewrite !orderReducer_REMOVE_ITEM by assumption. cbn.
  split; f_equal; f_equal.
  - apply filter_swap.
  - apply filter_twice.
Qed.

Lemma removes_commute_and_repeat_witness :
  dispatchAll
    {| OrderState.items := menuItems ++ menuItems;
       OrderState.customer := ∅;
       OrderState.discount := 0;
       OrderState.deliveryCharge := 0 |}
    [REMOVE_ITEM 2; REMOVE_ITEM 4]
  = dispatchAll
      {| OrderState.items := menuItems ++ menuItems;
         OrderState.customer := ∅;
         OrderState.discount := 0;
         OrderState.deliveryCharge := 0 |}
      [REMOVE_ITEM 4; REMOVE_ITEM 2].
Proof.
  apply (removes_commute_and_repeat
           {| OrderState.items := menuItems ++ menuItems;
              OrderState.customer := ∅;
              OrderState.discount := 0;
              OrderState.deliveryCharge := 0 |}
           (REMOVE_ITEM 2) (REMOVE_ITEM 4)); reflexivity.
Defined.

(** X3: a remove of the identifier just added undoes the add (and deletes the
    older line items with that identifier): the outcome is that of the
    remove alone, and the very state from before when the identifier was
    not in the order. *)
Theorem add_then_remove (state : OrderState.t) (a r : Action.t) :
  Action.type a = "ADD_ITEM" ->
  Action.type r = "REMOVE_ITEM" ->
  Action.id r = MenuItem.id (Action.item a) ->
  dispatchAll state [a; r] = orderReducer state r /\
  ((forall item, item ∈ OrderState.items state ->
                 MenuItem.id item <> Action.id r) ->
   dispatchAll state [a; r] = Return state).
Proof.
  intros Ha Hr Hid.
  rewrite (dispatchAll_two _ _ a r (orderReducer_ADD_ITEM state a Ha)).
  assert (Hsame : orderReducer
                    {| OrderState.items :=
                         OrderState.items state ++ [Action.item a];
                       OrderState.customer := OrderState.customer state;
                       OrderState.discount := OrderState.discount state;
                       OrderState.deliveryCharge := OrderState.deliveryCharge state |}
                    r
                  = orderReducer state r).
  { rewrite !orderReducer_REMOVE_ITEM by assumption. cbn.
    rewrite filter_app, filter_cons, filter_nil.
    case_decide as Hkeep; [now elim Hkeep|]. now rewrite app_nil_r. }
  split; [exact Hsame|].
  intros Habsent. rewrite Hsame.
  rewrite orderReducer_REMOVE_ITEM by assumption.
  rewrite filter_all_kept by (apply Forall_forall; assumption).
  now destruct state.
Qed.

Lemma add_then_remove_witness :
  dispatchAll initialState
    [ADD_ITEM (MenuItem.mk 2 "Pizza" 9 "Pizza"); REMOVE_ITEM 2]
  = Return initialState.
Proof.
  apply (add_then_remove initialState
           (ADD_ITEM (MenuItem.mk 2 "Pizza" 9 "Pizza")) (REMOVE_ITEM 2));
    try reflexivity.
  intros item Hin. now apply elem_of_nil in Hin.
Defined.

(** X4: an add and a remove of another identifier may be dispatched in either
    order. *)
Theorem add_remove_commute (state : OrderState.t) (a r : Action.t) :
  Action.type a = "ADD_ITEM" ->
  Action.type r = "REMOVE_ITEM" ->
  Action.id r <> MenuItem.id (Action.item a) ->
  dispatchAll state [a; r] = dispatchAll state [r; a].
Proof.
  intros Ha Hr Hid.
  rewrite (dispatchAll_two _ _ a r (orderReducer_ADD_ITEM state a Ha)).
  rewrite (dispatchAll_two _ _ r a (orderReducer_REMOVE_ITEM state r Hr)).
  rewrite orderReducer_REMOVE_ITEM, orderReducer_ADD_ITEM by assumption. cbn.
  rewrite filter_app, filter_cons, filter_nil.
  case_decide as Hkeep; [reflexivity|]. elim Hkeep. congruence.
Qed.

Lemma add_remove_commute_witness :
  dispatchAll initialState
    [ADD_ITEM (MenuItem.mk 2 "Pizza" 9 "Pizza"); REMOVE_ITEM 3]
  = dispatchAll initialState
      [REMOVE_ITEM 3; ADD_ITEM (MenuItem.mk 2 "Pizza" 9 "Pizza")].
Proof.
  apply (add_remove_commute initialState
           (ADD_ITEM (MenuItem.mk 2 "Pizza" 9 "Pizza")) (REMOVE_ITEM 3));
    [reflexivity|reflexivity|cbn; lia].
Defined.

(** X5: two updates of the customer amount to one update with the two partial
    records merged, the later one winning; an update dispatched a second
    time changes nothing. *)
Theorem updates_compose (state : OrderState.t) (u1 u2 : Action.t) :
  Action.type u1 = "UPDATE_CUSTOMER" ->
  Action.type u2 = "UPDATE_CUSTOMER" ->
  dispatchAll state [u1; u2]
    = orderReducer state
        (UPDATE_CUSTOMER (Action.payload u2 ∪ Action.payload u1)) /\
  dispatchAll state [u1; u1] = orderReducer state u1.
Proof.
  intros H1 H2.
  rewrite (dispatchAll_two _ _ u1 u2 (orderReducer_UPDATE_CUSTOMER state u1 H1)).
  rewrite (dispatchAll_two _ _ u1 u1 (orderReducer_UPDATE_CUSTOMER state u1 H1)).
  rewrite !orderReducer_UPDATE_CUSTOMER by (assumption || reflexivity). cbn.
  split; f_equal; f_equal.
  - apply (assoc_L (∪)).
  - rewrite (assoc_L (∪)). f_equal. apply (idemp_L (∪)).
Qed.

Lemma updates_compose_witness :
  dispatchAll initialState
    [UPDATE_CUSTOMER {[ "name" := "Ann"; "phone" := "1" ]};
     UPDATE_CUSTOMER {[ "phone" := "2" ]}]
  = orderReducer initialState
      (UPDATE_CUSTOMER ({[ "phone" := "2" ]} ∪ {[ "name" := "Ann"; "phone" := "1" ]})).
Proof.
  exact (proj1 (updates_compose initialState
                  (UPDATE_CUSTOMER {[ "name" := "Ann"; "phone" := "1" ]})
                  (UPDATE_CUSTOMER {[ "phone" := "2" ]}) eq_refl eq_refl)).
Defined.

(** X6: an update of the customer may be dispatched before or after an add or a
    remove: the outcome is the same. *)
Theorem update_commutes_with_items (state : OrderState.t) (u a : Action.t) :
  Action.type u = "UPDATE_CUSTOMER" ->
  Action.type a = "ADD_ITEM" \/ Action.type a = "REMOVE_ITEM" ->
  dispatchAll state [u; a] = dispatchAll state [a; u].
Proof.
  intros Hu [Ha|Ha].
  - rewrite (dispatchAll_two _ _ u a (orderReducer_UPDATE_CUSTOMER state u Hu)).
    rewrite (dispatchAll_two _ _ a u (orderReducer_ADD_ITEM state a Ha)).
    now rewrite (orderReducer_ADD_ITEM _ a Ha), (orderReducer_UPDATE_CUSTOMER _ u Hu).
  - rewrite (dispatchAll_two _ _ u a (orderReducer_UPDATE_CUSTOMER state u Hu)).
    rewrite (dispatchAll_two _ _ a u (orderReducer_REMOVE_ITEM state a Ha)).
    now rewrite (orderReducer_REMOVE_ITEM _ a Ha), (orderReducer_UPDATE_CUSTOMER _ u Hu).
Qed.

Lemma update_commutes_with_items_witness :
  dispatchAll initialState
    [UPDATE_CUSTOMER {[ "name" := "Ann" ]};
     ADD_ITEM (MenuItem.mk 2 "Pizza" 9 "Pizza")]
  = dispatchAll initialState
      [ADD_ITEM (MenuItem.mk 2 "Pizza" 9 "Pizza");
       UPDATE_CUSTOMER {[ "name" := "Ann" ]}].
Proof.
  apply (update_commutes_with_items initialState
           (UPDATE_CUSTOMER {[ "name" := "Ann" ]})
           (ADD_ITEM (MenuItem.mk 2 "Pizza" 9 "Pizza")));
    [reflexivity|left; reflexivity].
Defined.

(** X7: the outcome of a request depends on its tag and on the field of that
    tag only: the identifier and the payload of an add, the item and the
    payload of a remove, the item and the identifier of an update are never
    read. *)
Theorem unread_fields (state : OrderState.t) (a b : Action.t) :
  Action.type a = Action.type b ->
  (Action.type a = "ADD_ITEM" -> Action.item a = Action.item b) ->
  (Action.type a = "REMOVE_ITEM" -> Action.id a = Action.id b) ->
  (Action.type a = "UPDATE_CUSTOMER" -> Action.payload a = Action.payload b) ->
  orderReducer state a = orderReducer state b.
Proof.
  intros Htype Hitem Hid Hpayload. unfold orderReducer. rewrite <- Htype.
  destruct (String.eqb_spec (Action.type a) "ADD_ITEM") as [E|_];
    [now rewrite (Hitem E)|].
  destruct (String.eqb_spec (Action.type a) "REMOVE_ITEM") as [E|_];
    [now rewrite (Hid E)|].
  destruct (String.eqb_spec (Action.type a) "UPDATE_CUSTOMER") as [E|_];
    [now rewrite (Hpayload E)|].
  reflexivity.
Qed.

Lemma unread_fields_witness :
  orderReducer initialState (ADD_ITEM (MenuItem.mk 2 "Pizza" 9 "Pizza"))
  = orderReducer initialState
      {| Action.type := "ADD_ITEM";
         Action.item := MenuItem.mk 2 "Pizza" 9 "Pizza";
         Action.id := 7; Action.payload := {[ "name" := "Ann" ]} |}.
Proof.
  apply unread_fields; [reflexivity|reflexivity|discriminate|discriminate].
Defined.

(** ** What a session keeps *)

(** A relation between states that every returning request respects, and
    that is reflexive and transitive, holds between the two ends of every
    returning sequence. *)
Lemma dispatchAll_respects (R : OrderState.t -> OrderState.t -> Prop) :
  (forall state, R state state) ->
  (forall s1 s2 s3, R s1 s2 -> R s2 s3 -> R s1 s3) ->
  (forall state action state',
      orderReducer state action = Return state' -> R state state') ->
  forall actions state state',
    dispatchAll state actions = Return state' -> R state state'.
Proof.
  intros Hrefl Htrans Hstep.
  induction actions as [|action rest IH]; intros state state' Hrun.
  - injection Hrun as <-. apply Hrefl.
  - destruct (orderReducer state action) as [state1|e] eqn:H1.
    + rewrite (dispatchAll_cons _ _ _ _ H1) in Hrun.
      eapply Htrans; [eapply Hstep; exact H1|now apply IH].
    + unfold dispatchAll in Hrun. cbn in Hrun. rewrite H1 in Hrun.
      discriminate Hrun.
Qed.

(** What a returning request does to the state, whatever its tag. *)
Lemma orderReducer_cases (state state' : OrderState.t) (action : Action.t) :
  orderReducer state action = Return state' ->
  OrderState.discount state' = OrderState.discount state /\
  OrderState.deliveryCharge state' = OrderState.deliveryCharge state /\
  (OrderState.customer state' = OrderState.customer state \/
   OrderState.customer state'
   = Action.payload action ∪ OrderState.customer state) /\
  (OrderState.items state' = OrderState.items state \/
   (Action.type action = "ADD_ITEM" /\
    OrderState.items state' = OrderState.items state ++ [Action.item action]) \/
   OrderState.items state'
   = filter (fun item => MenuItem.id item <> Action.id action)
            (OrderState.items state)).
Proof.
  unfold orderReducer.
  destruct (String.eqb_spec (Action.type action) "ADD_ITEM") as [E|_];
    [intros [= <-]; cbn; auto 10|].
  destruct (String.eqb (Action.type action) "REMOVE_ITEM");
    [intros [= <-]; cbn; auto 10|].
  destruct (String.eqb (Action.type action) "UPDATE_CUSTOMER");
    [intros [= <-]; cbn; auto 10|].
  discriminate.
Qed.

Lemma dispatchAll_adjustments
      (actions : list Action.t) (state state' : OrderState.t) :
  dispatchAll state actions = Return state' ->
  OrderState.discount state' = OrderState.discount state /\
  OrderState.deliveryCharge state' = OrderState.deliveryCharge state.
Proof.
  apply (dispatchAll_respects
           (fun s s' =>
              OrderState.discount s' = OrderState.discount s /\
              OrderState.deliveryCharge s' = OrderState.deliveryCharge s)).
  - auto.
  - intros s1 s2 s3 [H1 H2] [H3 H4]. split; congruence.
  - intros s action s' Hstep.
    destruct (orderReducer_cases _ _ _ Hstep) as (Hd & Hc & _). auto.
Qed.

(** X8: no sequence of requests changes the discount or the delivery
    charge: the reducer has no request that sets them, so after any
    sequence that returns they have the values of the start. *)
Theorem adjustments_never_change
        (actions : list Action.t) (state state' : OrderState.t) :
  dispatchAll state actions = Return state' ->
  OrderState.discount state' = OrderState.discount state /\
  OrderState.deliveryCharge state' = OrderState.deliveryCharge state.
Proof.
  revert state state'. induction actions as [|action rest IH];
    intros state state' Hrun.
  - injection Hrun as <-. auto.
  - destruct (orderReducer state action) as [state1|e] eqn:H1.
    + rewrite (dispatchAll_cons _ _ _ _ H1) in Hrun.
      destruct (IH _ _ Hrun) as [Hd Hc].
      destruct (orderReducer_cases _ _ _ H1) as (Hd1 & Hc1 & _).
      split; congruence.
    + unfold dispatchAll in Hrun. cbn in Hrun. rewrite H1 in Hrun.
      discriminate Hrun.
Qed.

Lemma adjustments_never_change_witness :
  OrderState.discount
    {| OrderState.items := [MenuItem.mk 2 "Pizza" 9 "Pizza"];
       OrderState.customer := {[ "name" := "Ann" ]};
       OrderState.discount := 1.5;
       OrderState.deliveryCharge := 2 |} = 1.5%float /\
  OrderState.deliveryCharge
    {| OrderState.items := [MenuItem.mk 2 "Pizza" 9 "Pizza"];
       OrderState.customer := {[ "name" := "Ann" ]};
       OrderState.discount := 1.5;
       OrderState.deliveryCharge := 2 |} = 2%float.
Proof.
  apply (adjustments_never_change
           [ADD_ITEM (MenuItem.mk 2 "Pizza" 9 "Pizza");
            UPDATE_CUSTOMER {[ "name" := "Ann" ]}]
           {| OrderState.items := [];
              OrderState.customer := ∅;
              OrderState.discount := 1.5;
              OrderState.deliveryCharge := 2 |}).
  vm_compute. reflexivity.
Defined.

(** X9: no sequence of requests takes a field away from the customer record: a
    field once present stays present. *)
Theorem customer_fields_persist
        (actions : list Action.t) (state state' : OrderState.t) :
  dispatchAll state actions = Return state' ->
  forall field,
    is_Some (OrderState.customer state !! field) ->
    is_Some (OrderState.customer state' !! field).
Proof.
  apply (dispatchAll_respects
           (fun s s' =>
              forall field,
                is_Some (OrderState.customer s !! field) ->
                is_Some (OrderState.customer s' !! field))).
  - auto.
  - auto.
  - intros s action s' Hstep field Hfield.
    destruct (orderReducer_cases _ _ _ Hstep) as (_ & _ & [->| ->] & _);
      [assumption|].
    apply lookup_union_is_Some. now right.
Qed.

Lemma customer_fields_persist_witness :
  is_Some
    (OrderState.customer
       {| OrderState.items := [];
          OrderState.customer :=
            {[ "name" := "Ann" ]} ∪ OrderState.customer initialState;
          OrderState.discount := 0;
          OrderState.deliveryCharge := 0 |} !! "phone").
Proof.
  apply (customer_fields_persist
           [UPDATE_CUSTOMER {[ "name" := "Ann" ]}; REMOVE_ITEM 1]
           initialState).
  - vm_compute. reflexivity.
  - vm_compute. now eexists.
Defined.

(** X10: every line item of the order after a sequence of requests was in the
    order before it or is the item of one of its add requests: removes and
    updates bring no line item in. *)
Theorem line_items_provenance (actions : list Action.t) :
  forall state state',
    dispatchAll state actions = Return state' ->
    forall item,
      item ∈ OrderState.items state' ->
      item ∈ OrderState.items state \/
      exists action,
        action ∈ actions /\ Action.type action = "ADD_ITEM" /\
        Action.item action = item.
Proof.
  induction actions as [|action rest IH]; intros state state' Hrun item Hin.
  - injection Hrun as <-. now left.
  - destruct (orderReducer state action) as [state1|e] eqn:H1.
    + rewrite (dispatchAll_cons _ _ _ _ H1) in Hrun.
      destruct (IH _ _ Hrun item Hin) as [Hin1|(a & Ha & Htype & Hitem)].
      * destruct (orderReducer_cases _ _ _ H1)
          as (_ & _ & _ & [E|[[Htype E]|E]]); rewrite E in Hin1.
        -- now left.
        -- apply elem_of_app in Hin1 as [Hold|Hnew]; [now left|].
           apply list_elem_of_singleton in Hnew. right.
           exists action. split; [left|auto].
        -- left. now apply list_elem_of_filter in Hin1 as [_ Hold].
      * right. exists a. split; [now right|auto].
    + unfold dispatchAll in Hrun. cbn in Hrun. rewrite H1 in Hrun.
      discriminate Hrun.
Qed.

Lemma line_items_provenance_witness :
  MenuItem.mk 2 "Pizza" 9 "Pizza" ∈ OrderState.items initialState \/
  exists action,
    action ∈ [ADD_ITEM (MenuItem.mk 2 "Pizza" 9 "Pizza"); REMOVE_ITEM 1] /\
    Action.type action = "ADD_ITEM" /\
    Action.item action = MenuItem.mk 2 "Pizza" 9 "Pizza".
Proof.
  apply (line_items_provenance
           [ADD_ITEM (MenuItem.mk 2 "Pizza" 9 "Pizza"); REMOVE_ITEM 1]
           initialState
           {| OrderState.items := [MenuItem.mk 2 "Pizza" 9 "Pizza"];
              OrderState.customer := OrderState.customer initialState;
              OrderState.discount := 0;
              OrderState.deliveryCharge := 0 |}).
  - vm_compute. reflexivity.
  - left.
Defined.

(** ** Totals at the edges of binary64 arithmetic *)

Lemma nan_add (x : float) : (nan + x)%float = nan.
Proof. apply Prim2SF_inj. rewrite add_spec. reflexivity. Qed.

Lemma add_nan (x : float) : (x + nan)%float = nan.
Proof.
  apply Prim2SF_inj. rewrite add_spec.
  change (Prim2SF nan) with S754_nan.
  now destruct (Prim2SF x) as [| [] | |].
Qed.

Lemma nan_sub (x : float) : (nan - x)%float = nan.
Proof. apply Prim2SF_inj. rewrite sub_spec. reflexivity. Qed.

Lemma sub_zero (x : float) : (x - 0)%float = x.
Proof.
  apply Prim2SF_inj. rewrite sub_spec.
  change (Prim2SF 0) with (S754_zero false).
  now destruct (Prim2SF x) as [[]| [] | |].
Qed.

Lemma add_zero (x : float) :
  (x + 0)%float = x \/ (x = (-0)%float /\ (x + 0)%float = 0%float).
Proof.
  destruct (Prim2SF x) as [[]| [] | |] eqn:E.
  2-6: left; apply Prim2SF_inj; rewrite add_spec, E; reflexivity.
  assert (x = (-0)%float) as -> by (apply Prim2SF_inj; rewrite E; reflexivity).
  right. split; reflexivity.
Qed.

Lemma fold_add_nan (prices : list float) :
  fold_left PrimFloat.add prices nan = nan.
Proof.
  induction prices as [|p prices IH]; [reflexivity|].
  cbn. now rewrite nan_add.
Qed.

Lemma fold_add_with_nan (prices : list float) :
  forall init, nan ∈ prices -> fold_left PrimFloat.add prices init = nan.
Proof.
  induction prices as [|p prices IH]; intros init Hin.
  - now apply elem_of_nil in Hin.
  - cbn. apply elem_of_cons in Hin as [<-|Hin].
    + rewrite add_nan. apply fold_add_nan.
    + now apply IH.
Qed.

(** X11: on a sequence of line items the call returns for every shape of the
    two adjustments: an omitted and a [null] discount or delivery charge
    both enter the total as [0]. *)
Theorem calculateTotals_adjustments
        (items : list MenuItem.t) (discount deliveryCharge : nullable float) :
  calculateTotals (val (map val items)) discount deliveryCharge
  = Return {| Totals.subtotal := sum_of_prices items;
              Totals.total :=
                (sum_of_prices items - amount discount
                 + amount deliveryCharge)%float |}.
Proof.
  unfold calculateTotals. cbn. rewrite reduce_prices. cbn.
  now destruct discount, deliveryCharge.
Qed.

(** X12: a line item whose price is NaN makes both figures NaN, whatever the
    other line items, the discount and the delivery charge are. *)
Theorem nan_price_poisons_totals
        (items : list MenuItem.t) (discount deliveryCharge : nullable float) :
  (exists item, item ∈ items /\ MenuItem.price item = nan) ->
  calculateTotals (val (map val items)) discount deliveryCharge
  = Return {| Totals.subtotal := nan; Totals.total := nan |}.
Proof.
  intros (item & Hin & Hnan).
  unfold calculateTotals. cbn. rewrite reduce_prices. cbn.
  rewrite fold_add_with_nan
    by (rewrite <- Hnan; now apply list_elem_of_fmap_2).
  now rewrite nan_sub, nan_add.
Qed.

Lemma nan_price_poisons_totals_witness :
  calculateTotals
    (val (map val [MenuItem.mk 1 "Burger" 6 "Burgers";
                   MenuItem.mk 5 "Special" nan "Burgers";
                   MenuItem.mk 3 "Fries" 3 "Sides"]))
    (val 1%float) null
  = Return {| Totals.subtotal := nan; Totals.total := nan |}.
Proof.
  apply nan_price_poisons_totals.
  exists (MenuItem.mk 5 "Special" nan "Burgers").
  split; [|reflexivity]. right. left.
Defined.

(** X13: in the store the total is the subtotal: the session starts with no
    discount and no delivery charge and no request sets them.  The one
    exception in binary64 is a subtotal of negative zero, shown as the
    total positive zero. *)
Theorem store_total_is_subtotal
        (actions : list Action.t) (state : OrderState.t) :
  dispatchAll initialState actions = Return state ->
  exists totals,
    totalsOf state = Return totals /\
    Totals.subtotal totals = sum_of_prices (OrderState.items state) /\
    (Totals.total totals = Totals.subtotal totals \/
     (Totals.subtotal totals = (-0)%float /\ Totals.total totals = 0%float)).
Proof.
  intros Hrun.
  destruct (dispatchAll_adjustments _ _ _ Hrun) as [Hd Hc].
  unfold totalsOf. rewrite calculateTotals_typed, Hd, Hc. cbn.
  eexists. split; [reflexivity|]. cbn. split; [reflexivity|].
  rewrite sub_zero. apply add_zero.
Qed.

Lemma store_total_is_subtotal_witness :
  exists totals,
    totalsOf
      {| OrderState.items := [MenuItem.mk 2 "Pizza" 9 "Pizza";
                              MenuItem.mk 3 "Fries" 3 "Sides"];
         OrderState.customer := OrderState.customer initialState;
         OrderState.discount := 0;
         OrderState.deliveryCharge := 0 |} = Return totals /\
    Totals.subtotal totals = 12%float.
Proof.
  destruct (store_total_is_subtotal
              [ADD_ITEM (MenuItem.mk 2 "Pizza" 9 "Pizza");
               ADD_ITEM (MenuItem.mk 3 "Fries" 3 "Sides")]
              {| OrderState.items := [MenuItem.mk 2 "Pizza" 9 "Pizza";
                                      MenuItem.mk 3 "Fries" 3 "Sides"];
                 OrderState.customer := OrderState.customer initialState;
                 OrderState.discount := 0;
                 OrderState.deliveryCharge := 0 |})
    as (totals & Htotals & Hsub & _).
  - vm_compute. reflexivity.
  - exists totals. split; [assumption|]. rewrite Hsub. reflexivity.
Defined.

(** ** The components *)

Lemma handleAdd_appends (state : OrderState.t) (item : MenuItem.t) :
  handleAdd state item
  = ({| OrderState.items := OrderState.items state ++ [item];
        OrderState.customer := OrderState.customer state;
        OrderState.discount := OrderState.discount state;
        OrderState.deliveryCharge := OrderState.deliveryCharge state |}, []).
Proof. reflexivity. Qed.

Lemma handleRemove_filters (state : OrderState.t) (item : MenuItem.t) :
  handleRemove state item
  = Return {| OrderState.items :=
                filter (fun line => MenuItem.id line <> MenuItem.id item)
                       (OrderState.items state);
              OrderState.customer := OrderState.customer state;
              OrderState.discount := OrderState.discount state;
              OrderState.deliveryCharge := OrderState.deliveryCharge state |}.
Proof. reflexivity. Qed.

Lemma nonempty_None (message value : string) :
  nonempty message value = None <-> value <> "".
Proof. destruct value; cbn; split; congruence. Qed.

Lemma nonempty_Some (message value : string) :
  nonempty message value = Some message <-> value = "".
Proof. destruct value; cbn; split; congruence. Qed.

Lemma isValid_iff (data : CustomerFormData.t) :
  isValid (customerSchema data) = true <->
  CustomerFormData.name data <> "" /\
  CustomerFormData.phone data <> "" /\
  CustomerFormData.address data <> "".
Proof.
  destruct data as [[|? ?] [|? ?] [|? ?]]; cbn;
    (split; [intros H; try discriminate H; repeat split; discriminate
            |intros (H1 & H2 & H3); congruence]).
Qed.

Lemma formObject_union (data data0 : CustomerFormData.t) :
  formObject data ∪ formObject data0 = formObject data.
Proof. destruct data, data0. vm_compute. reflexivity. Qed.

(** X14: no event of the page makes the reducer throw, since the three
    components dispatch recognised tags only.  [handleAdd] always appends
    its item at the end of the order, its [catch] never runs and nothing is
    written to the console; the Remove button and the submission of the
    form always return a state, the Remove button the order without the
    line items of the identifier. *)
Theorem no_event_throws (state : OrderState.t) :
  (forall e, returns (handle state e)) /\
  (forall item,
      handleAdd state item
      = ({| OrderState.items := OrderState.items state ++ [item];
            OrderState.customer := OrderState.customer state;
            OrderState.discount := OrderState.discount state;
            OrderState.deliveryCharge := OrderState.deliveryCharge state |},
         []) /\
      handle state (ClickAdd item)
      = Return {| OrderState.items := OrderState.items state ++ [item];
                  OrderState.customer := OrderState.customer state;
                  OrderState.discount := OrderState.discount state;
                  OrderState.deliveryCharge := OrderState.deliveryCharge state |}) /\
  (forall item,
      handleRemove state item
      = Return {| OrderState.items :=
                    filter (fun line => MenuItem.id line <> MenuItem.id item)
                           (OrderState.items state);
                  OrderState.customer := OrderState.customer state;
                  OrderState.discount := OrderState.discount state;
                  OrderState.deliveryCharge := OrderState.deliveryCharge state |}) /\
  (forall data, returns (handleSubmit state data)).
Proof.
  assert (Hsubmit : forall data, returns (handleSubmit state data)).
  { intros data. unfold handleSubmit.
    destruct (isValid (customerSchema data)); now eexists. }
  split; [|split; [|split]].
  - intros [item|item|data]; cbn.
    + now eexists.
    + now eexists.
    + destruct (Hsubmit data) as [result ->]. now eexists.
  - intros item. split; reflexivity.
  - intros item. reflexivity.
  - exact Hsubmit.
Qed.

(** X15: the Remove button of a displayed line item leaves exactly the
    line items of the other identifiers, each as often as before and in
    the same order: the clicked line item and every other line item of its
    identifier are deleted and nothing else is, so the order gets shorter
    by the number of line items with that identifier, at least one. *)
Theorem remove_click_deletes_the_line (state : OrderState.t) (item : MenuItem.t) :
  item ∈ OrderState.items state ->
  exists state',
    handleRemove state item = Return state' /\
    OrderState.items state'
    = filter (fun line => MenuItem.id line <> MenuItem.id item)
             (OrderState.items state) /\
    Forall (fun line => MenuItem.id line <> MenuItem.id item)
           (OrderState.items state') /\
    filter (fun line => MenuItem.id line <> MenuItem.id item)
           (OrderState.items state')
    = filter (fun line => MenuItem.id line <> MenuItem.id item)
             (OrderState.items state) /\
    OrderState.items state' `sublist_of` OrderState.items state /\
    (item ∉ OrderState.items state') /\
    length (OrderState.items state') < length (OrderState.items state) /\
    length (OrderState.items state')
    + length (matching state (MenuItem.id item))
    = length (OrderState.items state) /\
    (forall line, MenuItem.id line <> MenuItem.id item ->
                  line ∈ OrderState.items state ->
                  line ∈ OrderState.items state').
Proof.
  intros Hin. eexists. split; [apply handleRemove_filters|]. cbn.
  pose proof (length_kept_deleted (MenuItem.id item) (OrderState.items state))
    as Hlen.
  assert (Hpos : 0 < length (matching state (MenuItem.id item))).
  { unfold matching.
    destruct (filter (fun line => MenuItem.id line = MenuItem.id item)
                     (OrderState.items state)) as [|x l] eqn:E; [|cbn; lia].
    rewrite no_match_iff in E. now elim (E item Hin). }
  unfold matching in *.
  split; [reflexivity|].
  split.
  { apply Forall_forall. intros line Hline.
    now apply list_elem_of_filter in Hline as [Hne _]. }
  split; [apply filter_twice|].
  split; [apply sublist_filter|].
  split; [|split; [|split]].
  - intros Hstill. now apply list_elem_of_filter in Hstill as [Hne _].
  - lia.
  - exact Hlen.
  - intros line Hne Hline. now apply list_elem_of_filter.
Qed.

Lemma remove_click_deletes_the_line_witness :
  exists state',
    handleRemove
      {| OrderState.items := [MenuItem.mk 1 "Burger" 6 "Burgers";
                              MenuItem.mk 3 "Fries" 3 "Sides";
                              MenuItem.mk 1 "Burger" 6 "Burgers"];
         OrderState.customer := ∅;
         OrderState.discount := 0;
         OrderState.deliveryCharge := 0 |}
      (MenuItem.mk 1 "Burger" 6 "Burgers") = Return state' /\
    OrderState.items state' = [MenuItem.mk 3 "Fries" 3 "Sides"].
Proof.
  destruct (remove_click_deletes_the_line
              {| OrderState.items := [MenuItem.mk 1 "Burger" 6 "Burgers";
                                      MenuItem.mk 3 "Fries" 3 "Sides";
                                      MenuItem.mk 1 "Burger" 6 "Burgers"];
                 OrderState.customer := ∅;
                 OrderState.discount := 0;
                 OrderState.deliveryCharge := 0 |}
              (MenuItem.mk 1 "Burger" 6 "Burgers"))
    as (state' & Hret & Hitems & _).
  - left.
  - exists state'. split; assumption.
Defined.

(** X16: a form whose three fields are filled in is accepted: it shows no error
    and the customer record then reads back the three submitted values;
    the other fields of the record, the item sequence and the adjustments
    are as before. *)
Theorem accepted_form_updates_customer
        (state : OrderState.t) (data : CustomerFormData.t) :
  CustomerFormData.name data <> "" ->
  CustomerFormData.phone data <> "" ->
  CustomerFormData.address data <> "" ->
  exists state',
    handleSubmit state data = Return (state', noErrors) /\
    OrderState.customer state' !! "name" = Some (CustomerFormData.name data) /\
    OrderState.customer state' !! "phone" = Some (CustomerFormData.phone data) /\
    OrderState.customer state' !! "address"
      = Some (CustomerFormData.address data) /\
    (forall field,
        field <> "name" -> field <> "phone" -> field <> "address" ->
        OrderState.customer state' !! field
        = OrderState.customer state !! field) /\
    OrderState.items state' = OrderState.items state /\
    OrderState.discount state' = OrderState.discount state /\
    OrderState.deliveryCharge state' = OrderState.deliveryCharge state.
Proof.
  intros Hname Hphone Haddress.
  unfold handleSubmit.
  rewrite (proj2 (isValid_iff data)) by auto.
  unfold customerSchema.
  rewrite !(proj2 (nonempty_None _ _)) by assumption.
  eexists. split; [reflexivity|]. cbn.
  repeat split.
  - apply lookup_union_Some_l. reflexivity.
  - apply lookup_union_Some_l. reflexivity.
  - apply lookup_union_Some_l. reflexivity.
  - intros field H1 H2 H3. apply lookup_union_r. unfold formObject.
    rewrite !lookup_insert_ne by congruence.
    apply lookup_singleton_ne. congruence.
Qed.

Lemma accepted_form_updates_customer_witness :
  exists state',
    handleSubmit initialState (CustomerFormData.mk "Ann" "555" "1 Main St")
    = Return (state', noErrors) /\
    OrderState.customer state' !! "name" = Some "Ann".
Proof.
  destruct (accepted_form_updates_customer initialState
              (CustomerFormData.mk "Ann" "555" "1 Main St"))
    as (state' & Hret & Hname & _); try discriminate.
  exists state'. split; assumption.
Defined.

(** X17: a form with an empty field is rejected: nothing is dispatched, the
    state stays as it is, and the form shows the message of each empty
    field and of no other. *)
Theorem rejected_form_dispatches_nothing
        (state : OrderState.t) (data : CustomerFormData.t) :
  CustomerFormData.name data = "" \/
  CustomerFormData.phone data = "" \/
  CustomerFormData.address data = "" ->
  exists errors,
    handleSubmit state data = Return (state, errors) /\
    errors <> noErrors /\
    (FormErrors.name errors = Some "Name is required" <->
     CustomerFormData.name data = "") /\
    (FormErrors.name errors = None <-> CustomerFormData.name data <> "") /\
    (FormErrors.phone errors = Some "Phone is required" <->
     CustomerFormData.phone data = "") /\
    (FormErrors.phone errors = None <-> CustomerFormData.phone data <> "") /\
    (FormErrors.address errors = Some "Address is required" <->
     CustomerFormData.address data = "") /\
    (FormErrors.address errors = None <-> CustomerFormData.address data <> "").
Proof.
  intros Hempty. exists (customerSchema data).
  assert (Hinvalid : isValid (customerSchema data) = false).
  { destruct (isValid (customerSchema data)) eqn:E; [|reflexivity].
    apply isValid_iff in E as (H1 & H2 & H3). tauto. }
  split; [unfold handleSubmit; now rewrite Hinvalid|].
  split; [intros E; now rewrite E in Hinvalid|].
  cbn. repeat split;
    first [apply nonempty_Some | apply nonempty_None].
Qed.

Lemma rejected_form_dispatches_nothing_witness :
  exists errors,
    handleSubmit initialState (CustomerFormData.mk "Ann" "" "1 Main St")
    = Return (initialState, errors) /\
    FormErrors.phone errors = Some "Phone is required".
Proof.
  destruct (rejected_form_dispatches_nothing initialState
              (CustomerFormData.mk "Ann" "" "1 Main St"))
    as (errors & Hret & _ & _ & _ & Hphone & _).
  - right. left. reflexivity.
  - exists errors. split; [assumption|]. now apply Hphone.
Defined.

Lemma reachable_catalog (state : OrderState.t) :
  reachable state ->
  Forall (fun item => item ∈ menuItems) (OrderState.items state).
Proof.
  induction 1 as [|state state' e Hreach Hitems Hoffered Hhandle].
  - constructor.
  - destruct e as [item|item|data]; cbn in Hoffered; unfold handle in Hhandle.
    + injection Hhandle as <-. cbn.
      apply Forall_app. split; [assumption|]. now constructor.
    + rewrite handleRemove_filters in Hhandle. injection Hhandle as <-. cbn.
      apply Forall_forall. intros line Hline.
      apply list_elem_of_filter in Hline as [_ Hline].
      revert line Hline. now apply Forall_forall.
    + unfold handleSubmit in Hhandle.
      destruct (isValid (customerSchema data)); cbn in Hhandle;
        now injection Hhandle as <-.
Qed.

(** X18: in every state of a session every line item is an entry of the
    catalog, the discount and the delivery charge are zero, and the
    customer record is either the empty one of the start or the three
    non-empty fields of an accepted form. *)
Theorem session_invariants (state : OrderState.t) :
  reachable state ->
  Forall (fun item => item ∈ menuItems) (OrderState.items state) /\
  OrderState.discount state = 0%float /\
  OrderState.deliveryCharge state = 0%float /\
  (OrderState.customer state = OrderState.customer initialState \/
   complete_customer (OrderState.customer state)).
Proof.
  induction 1 as [|state state' e Hreach (Hitems & Hd & Hc & Hcustomer)
                    Hoffered Hhandle].
  - repeat split; [constructor|now left].
  - destruct e as [item|item|data]; cbn in Hoffered; unfold handle in Hhandle.
    + injection Hhandle as <-. cbn.
      repeat split; try assumption.
      apply Forall_app. split; [assumption|]. now constructor.
    + rewrite handleRemove_filters in Hhandle. injection Hhandle as <-. cbn.
      repeat split; try assumption.
      apply Forall_forall. intros line Hline.
      apply list_elem_of_filter in Hline as [_ Hline].
      revert line Hline. now apply Forall_forall.
    + unfold handleSubmit in Hhandle.
      destruct (isValid (customerSchema data)) eqn:Hvalid; cbn in Hhandle.
      * injection Hhandle as <-. cbn.
        repeat split; try assumption. right.
        apply isValid_iff in Hvalid. exists data. split; [|exact Hvalid].
        destruct Hcustomer as [->|(data0 & -> & _)].
        -- apply (formObject_union data (CustomerFormData.mk "" "" "")).
        -- apply formObject_union.
      * injection Hhandle as <-. auto.
Qed.

#[local] Set Warnings "-inexact-float".
Lemma session_invariants_witness :
  Forall (fun item => item ∈ menuItems)
         (OrderState.items
            {| OrderState.items := [MenuItem.mk 4 "Soda" 1.99 "Drinks"];
               OrderState.customer := OrderState.customer initialState;
               OrderState.discount := 0;
               OrderState.deliveryCharge := 0 |}).
Proof.
  apply session_invariants.
  apply (reachable_event initialState _
           (ClickAdd (MenuItem.mk 4 "Soda" 1.99 "Drinks")) reachable_initial).
  - cbn. do 3 right. left.
  - reflexivity.
Defined.
#[local] Set Warnings "inexact-float".

(** Two entries of the catalog with the same identifier are the same
    entry. *)
Lemma menuItems_identified (a b : MenuItem.t) :
  a ∈ menuItems -> b ∈ menuItems -> MenuItem.id a = MenuItem.id b -> a = b.
Proof.
  unfold menuItems. intros Ha Hb.
  repeat (apply elem_of_cons in Ha as [->|Ha]);
    [| | | |now apply elem_of_nil in Ha];
    repeat (apply elem_of_cons in Hb as [->|Hb]);
    try (now apply elem_of_nil in Hb);
    cbn; intros E; first [reflexivity | discriminate E].
Qed.

Lemma without_filter (item : MenuItem.t) (lines : list MenuItem.t) :
  (forall line, line ∈ lines ->
                MenuItem.id line = MenuItem.id item -> line = item) ->
  without item lines
          (filter (fun line => MenuItem.id line <> MenuItem.id item) lines).
Proof.
  induction lines as [|line lines IH]; intros Hcopies.
  - constructor.
  - rewrite filter_cons.
    assert (Hrest : forall line', line' ∈ lines ->
                      MenuItem.id line' = MenuItem.id item -> line' = item)
      by (intros line' Hline'; apply Hcopies; now right).
    destruct (decide (MenuItem.id line = MenuItem.id item)) as [Hid|Hid].
    + rewrite (Hcopies line (list_elem_of_here _ _) Hid).
      case_decide as Hkeep; [now elim Hkeep|].
      apply without_copy. now apply IH.
    + case_decide as Hkeep; [|contradiction].
      apply without_other; [|now apply IH].
      intros ->. now apply Hid.
Qed.

(** [without item lines] has one result: the relation fixes which line
    items stay, how often and in which order. *)
Lemma without_functional (item : MenuItem.t) (lines kept1 kept2 : list MenuItem.t) :
  without item lines kept1 -> without item lines kept2 -> kept1 = kept2.
Proof.
  intros H1. revert kept2.
  induction H1 as [|lines kept1 H1 IH|line lines kept1 Hne H1 IH];
    intros kept2 H2.
  - now inversion H2.
  - inversion H2 as [|? ? H2'|? ? ? Hne' H2']; subst.
    + now apply IH.
    + now elim Hne'.
  - inversion H2 as [|? ? H2'|? ? ? Hne' H2']; subst.
    + now elim Hne.
    + f_equal. now apply IH.
Qed.

(** X19: in a session the Remove button of a line item deletes the copies of
    that catalog entry, all of them, and keeps every other line item, as
    often as it occurs and in its place: a line item of a session carries
    the identifier of the clicked one only when it is a copy of it. *)
Theorem session_remove_deletes_the_copies
        (state : OrderState.t) (item : MenuItem.t) :
  reachable state ->
  item ∈ OrderState.items state ->
  exists state',
    handleRemove state item = Return state' /\
    without item (OrderState.items state) (OrderState.items state') /\
    (forall line, line ∈ OrderState.items state ->
                  (MenuItem.id line = MenuItem.id item <-> line = item)) /\
    OrderState.items state' `sublist_of` OrderState.items state /\
    forall line,
      line ∈ OrderState.items state' <->
      line ∈ OrderState.items state /\ line <> item.
Proof.
  intros Hreach Hin.
  pose proof (reachable_catalog state Hreach) as Hcatalog.
  rewrite Forall_forall in Hcatalog.
  assert (Hcopies : forall line, line ∈ OrderState.items state ->
                      MenuItem.id line = MenuItem.id item -> line = item)
    by (intros line Hline Hid; apply menuItems_identified; auto).
  eexists. split; [apply handleRemove_filters|]. cbn.
  split; [now apply without_filter|].
  split; [intros line Hline; split; [now apply Hcopies|now intros ->]|].
  split; [apply sublist_filter|].
  intros line. rewrite list_elem_of_filter. split.
  - intros [Hne Hline]. split; [assumption|]. intros ->. now apply Hne.
  - intros [Hline Hne]. split; [|assumption].
    intros Hid. apply Hne. now apply Hcopies.
Qed.

#[local] Set Warnings "-inexact-float".
Lemma session_remove_deletes_the_copies_witness :
  exists state',
    handleRemove
      {| OrderState.items := [MenuItem.mk 4 "Soda" 1.99 "Drinks";
                              MenuItem.mk 3 "Fries" 2.99 "Sides";
                              MenuItem.mk 3 "Fries" 2.99 "Sides"];
         OrderState.customer := OrderState.customer initialState;
         OrderState.discount := 0;
         OrderState.deliveryCharge := 0 |}
      (MenuItem.mk 4 "Soda" 1.99 "Drinks") = Return state' /\
    without (MenuItem.mk 4 "Soda" 1.99 "Drinks")
            [MenuItem.mk 4 "Soda" 1.99 "Drinks";
             MenuItem.mk 3 "Fries" 2.99 "Sides";
             MenuItem.mk 3 "Fries" 2.99 "Sides"]
            (OrderState.items state').
Proof.
  destruct (session_remove_deletes_the_copies
              {| OrderState.items := [MenuItem.mk 4 "Soda" 1.99 "Drinks";
                                      MenuItem.mk 3 "Fries" 2.99 "Sides";
                                      MenuItem.mk 3 "Fries" 2.99 "Sides"];
                 OrderState.customer := OrderState.customer initialState;
                 OrderState.discount := 0;
                 OrderState.deliveryCharge := 0 |}
              (MenuItem.mk 4 "Soda" 1.99 "Drinks"))
    as (state' & Hret & Hwithout & _).
  - apply (reachable_event
             {| OrderState.items := [MenuItem.mk 4 "Soda" 1.99 "Drinks";
                                     MenuItem.mk 3 "Fries" 2.99 "Sides"];
                OrderState.customer := OrderState.customer initialState;
                OrderState.discount := 0;
                OrderState.deliveryCharge := 0 |} _
             (ClickAdd (MenuItem.mk 3 "Fries" 2.99 "Sides"))).
    + apply (reachable_event
               {| OrderState.items := [MenuItem.mk 4 "Soda" 1.99 "Drinks"];
                  OrderState.customer := OrderState.customer initialState;
                  OrderState.discount := 0;
                  OrderState.deliveryCharge := 0 |} _
               (ClickAdd (MenuItem.mk 3 "Fries" 2.99 "Sides"))).
      * apply (reachable_event initialState _
                 (ClickAdd (MenuItem.mk 4 "Soda" 1.99 "Drinks"))
                 reachable_initial).
        -- cbn. do 3 right. left.
        -- reflexivity.
      * cbn. do 2 right. left.
      * reflexivity.
    + cbn. do 2 right. left.
    + reflexivity.
  - left.
  - exists state'. split; assumption.
Defined.
#[local] Set Warnings "inexact-float".

Lemma dispatchAll_returns_iff_recognised_witness :
  dispatchAll initialState
    [ADD_ITEM (MenuItem.mk 2 "Pizza" 9 "Pizza");
     {| Action.type := "CLEAR_ORDER"; Action.item := no_item;
        Action.id := no_id; Action.payload := no_payload |};
     REMOVE_ITEM 2]
  = Throw (Error "Unhandled action type: CLEAR_ORDER").
Proof.
  apply (proj2 dispatchAll_returns_iff_recognised
               [ADD_ITEM (MenuItem.mk 2 "Pizza" 9 "Pizza")]
               {| Action.type := "CLEAR_ORDER"; Action.item := no_item;
                  Action.id := no_id; Action.payload := no_payload |}
               [REMOVE_ITEM 2] initialState).
  - repeat constructor.
  - reflexivity.
Defined.
